(** * capTouchmidi: a touch pad that types a space bar over BLE HID

    Shallow embedding of [main.py] and the properties of its specification.
    The program runs on MicroPython (it imports [bluetooth], [machine] and
    [micropython]); the library calls are modelled as MicroPython has them.

    Conventions of the embedding.
    - Bytes are [Byte.byte]; a [bytes] / [bytearray] value is a [list byte].
    - A [str] is held as its UTF-8 bytes, in a [string]; [len] of a [str]
      counts its characters, that is the bytes that are no continuation
      bytes; appended to a [bytes] value a [str] contributes its bytes.
    - [struct.pack] does not check ranges: it stores the low bits of each
      argument.
    - Effects (radio calls, sleeps, LED, console) are recorded in a trace of
      [action]s; what the environment does (sensor readings, tick counter
      values, whether the sensor driver and the radio return or raise,
      radio events and the moment they are delivered) is an input.
    - Exceptions are explicit: a computation returns [Ok] or [Raise]. *)

From Stdlib Require Import ZArith List String Ascii Bool Lia.
From Stdlib.Strings Require Import Byte.
From stdpp Require Import gmap.
Import ListNotations.

Local Open Scope Z_scope.

(** ** Exceptions *)

Inductive exn : Type :=
| TypeError            (* an argument of the wrong type, here [None] for an int *)
| ValueError           (* a driver rejects a value or an operation *)
| OSError.             (* an input/output error of a driver *)

Inductive result (A : Type) : Type :=
| Ok (a : A)
| Raise (e : exn).
Arguments Ok {A} a.
Arguments Raise {A} e.

(** ** Configuration (lines 9-13) *)

Definition TOUCH_PIN_NUM : Z := 32.
Definition TOUCH_THRESHOLD : Z := 800.
Definition DEBOUNCE_MS : Z := 300.
Definition LED_PIN : Z := 2.
Definition KEY_HOLD_TIME_MS : Z := 75.

(** ** BLE constants (lines 17-35) *)

Definition _IRQ_CENTRAL_CONNECT : Z := 1.
Definition _IRQ_CENTRAL_DISCONNECT : Z := 2.
Definition _ADV_APPEARANCE_KEYBOARD : Z := 961.

Definition _HID_REPORT_DESC : list byte :=
  [ x05; x01; x09; x06; xa1; x01; x05; x07; x19; xe0; x29; xe7;
    x15; x00; x25; x01; x75; x01; x95; x08; x81; x02; x95; x01;
    x75; x08; x81; x01; x95; x06; x75; x08; x15; x00; x25; x65;
    x05; x07; x19; x00; x29; x65; x81; x00; xc0 ]%byte.

(** ** [struct.pack] *)

Definition byte_of_Z (v : Z) : byte :=
  match Byte.of_N (Z.to_N (v mod 256)) with
  | Some b => b
  | None => x00
  end.

Definition Z_of_byte (b : byte) : Z := Z.of_N (Byte.to_N b).

(** Format ["B"]: one byte, the low 8 bits of the argument. *)
Definition pack_B (v : Z) : byte := byte_of_Z v.

(** Formats ["BB"], ["8B"]: one ["B"] per argument. *)
Definition pack_Bs (vs : list Z) : list byte := map pack_B vs.

(** Format ["<h"]: the low 16 bits of the argument, low byte first. *)
Definition pack_h_le (v : Z) : list byte :=
  let u := v mod 65536 in
  [byte_of_Z (u mod 256); byte_of_Z (u / 256)].

(** ** [len] and [+] on [bytes] and [str] *)

(** A UTF-8 continuation byte: [10xxxxxx]. *)
Definition is_continuation (b : byte) : bool :=
  Z.land (Z_of_byte b) 192 =? 128.

(** [len] of a [str]: the number of its characters. *)
Definition str_len (s : string) : nat :=
  List.length
    (List.filter (fun b => negb (is_continuation b)) (list_byte_of_string s)).

(** The values [_append] is called with. *)
Inductive bytes_like : Type :=
| Bytes (b : list byte)
| Str (s : string).

Definition py_len (value : bytes_like) : nat :=
  match value with
  | Bytes b => List.length b
  | Str s => str_len s
  end.

(** The bytes a value contributes to a concatenation. *)
Definition buffer (value : bytes_like) : list byte :=
  match value with
  | Bytes b => b
  | Str s => list_byte_of_string s
  end.

(** ** [advertising_payload] (lines 96-108) *)

(** The nested [_append]: [payload += pack("BB", len(value) + 1, adv_type) + value]. *)
Definition _append (payload : list byte) (adv_type : Z) (value : bytes_like)
  : list byte :=
  payload ++ pack_Bs [Z.of_nat (py_len value) + 1; adv_type] ++ buffer value.

(** Truth value of [name]: [None] and the empty string are false. *)
Definition name_truthy (name : option string) : bool :=
  match name with
  | Some s => negb (String.length s =? 0)%nat
  | None => false
  end.

Definition name_bytes (name : option string) : list byte :=
  match name with
  | Some s => list_byte_of_string s
  | None => []
  end.

Definition advertising_payload (limited_disc br_edr : bool)
    (name : option string) (appearance : Z) : list byte :=
  let payload := [] in
  let payload :=
    _append payload 1
      (Bytes [pack_B ((if limited_disc then 2 else 6)
                      + (if br_edr then 0 else 4))]) in
  let payload :=
    match name with
    | Some s => if name_truthy name then _append payload 9 (Str s) else payload
    | None => payload
    end in
  let payload :=
    if negb (appearance =? 0)
    then _append payload 25 (Bytes (pack_h_le appearance))
    else payload in
  let payload := _append payload 3 (Bytes [x12; x18]%byte) in
  payload.

(** ** The environment: radio stack, LED, console, clock *)

Inductive message : Type :=
| MsgBleReady (name : string)   (* "BLE Ready: Advertising as '...'" *)
| MsgConnected                  (* "Connected! (Open a text editor now)" *)
| MsgDisconnected               (* "Disconnected - Advertising again" *)
| MsgStarted                    (* "Program started. ..." *)
| MsgTouch (val : Z)            (* "Touch (val) -> Sending Spacebar" *)
| MsgError (e : exn).           (* "Error: ..." *)

(** [bluetooth.FLAG_*] of the MicroPython radio module. *)
Definition FLAG_READ : Z := 2.
Definition FLAG_WRITE : Z := 8.
Definition FLAG_NOTIFY : Z := 16.

Definition _HID_SERVICE_UUID : Z := 0x1812.
Definition _HID_INFO_UUID : Z := 0x2A4A.
Definition _HID_REPORT_MAP_UUID : Z := 0x2A4B.
Definition _HID_CONTROL_POINT_UUID : Z := 0x2A4C.
Definition _HID_REPORT_UUID : Z := 0x2A4D.
Definition _HID_PROTO_MODE_UUID : Z := 0x2A4E.

(** What the program does to its environment, in program order.
    [CallSendKey] is not an effect: it marks the entry into
    [BLEKeyboard.send_key], so that a key event shows in the trace whether or
    not a host is connected. *)
Inductive action : Type :=
| Print (m : message)
| LedValue (v : Z)
| BleActive (on : bool)
| BleIrq                        (* the handler [self._irq] is registered *)
| GattsRegisterServices (services : list (Z * list (Z * Z)))
| GattsWrite (value_handle : Z) (data : list byte)
| GapAdvertise (interval_us : Z) (adv_data : list byte)
| GattsNotify (conn_handle value_handle : Z) (data : list byte)
| SleepMs (ms : Z)
| Sleep (s : Z)
| CallSendKey (key_code : Z).

(** The state of the environment.  [stack_handles] and [radio_script] are
    what the radio stack will answer: the five value handles it returns at
    registration, and for each coming [gatts_notify] whether it is accepted
    ([true]) or raises [OSError] ([false]); an exhausted script accepts. *)
Record world : Type := mkWorld {
  gatts : gmap Z (list byte);
  led : Z;
  stack_handles : Z * Z * Z * Z * Z;
  radio_script : list bool
}.

(** Computations over a state [S], with exceptions and a trace. *)
Definition ST (S A : Type) : Type := S -> result A * S * list action.

(** Computations on the environment alone. *)
Abbreviation M := (ST world).

Definition ret {S A} (a : A) : ST S A := fun s => (Ok a, s, []).

Definition bind {S A B} (m : ST S A) (k : A -> ST S B) : ST S B :=
  fun s =>
    match m s with
    | (Ok a, s1, t1) =>
        match k a s1 with
        | (r, s2, t2) => (r, s2, t1 ++ t2)
        end
    | (Raise e, s1, t1) => (Raise e, s1, t1)
    end.

Declare Scope M_scope.
Delimit Scope M_scope with M.
Notation "'let*' x ':=' m 'in' k" := (bind m (fun x => k))
  (at level 10, x name, m at level 100, k at level 200, only parsing)
  : M_scope.
Notation "m ';;;' k" := (bind m (fun _ => k))
  (at level 100, k at level 200, only parsing, right associativity) : M_scope.

Definition lift {S A} (r : result A) : ST S A := fun s => (r, s, []).

Definition emit {S} (a : action) : ST S unit := fun s => (Ok tt, s, [a]).

(** [try: m  except OSError as e: h e]; any other exception propagates. *)
Definition try_except_OSError {S A} (m : ST S A) (h : exn -> ST S A) : ST S A :=
  fun s =>
    match m s with
    | (Raise OSError, s1, t1) =>
        match h OSError s1 with
        | (r, s2, t2) => (r, s2, t1 ++ t2)
        end
    | other => other
    end.

Definition print {S} (m : message) : ST S unit := emit (Print m).
Definition sleep_ms {S} (ms : Z) : ST S unit := emit (SleepMs ms).
Definition sleep {S} (s : Z) : ST S unit := emit (Sleep s).

Definition led_value (v : Z) : M unit :=
  fun w => (Ok tt, mkWorld (gatts w) v (stack_handles w) (radio_script w),
            [LedValue v]).

Definition ble_active {S} (on : bool) : ST S unit := emit (BleActive on).
Definition ble_irq {S} : ST S unit := emit BleIrq.

Definition gatts_register_services (services : list (Z * list (Z * Z)))
  : M (Z * Z * Z * Z * Z) :=
  fun w => (Ok (stack_handles w), w, [GattsRegisterServices services]).

Definition gatts_write (value_handle : Z) (data : list byte) : M unit :=
  fun w =>
    (Ok tt,
     mkWorld (<[value_handle := data]> (gatts w)) (led w)
             (stack_handles w) (radio_script w),
     [GattsWrite value_handle data]).

Definition gap_advertise {S} (interval_us : Z) (adv_data : list byte)
  : ST S unit :=
  emit (GapAdvertise interval_us adv_data).

(** [conn_handle] is whatever [self._conn_handle] holds: [None] is no
    integer and raises [TypeError] before the radio is asked. *)
Definition gatts_notify (conn_handle : option Z) (value_handle : Z)
    (data : list byte) : M unit :=
  fun w =>
    match conn_handle with
    | None => (Raise TypeError, w, [])
    | Some c =>
        match radio_script w with
        | false :: rest =>
            (Raise OSError, mkWorld (gatts w) (led w) (stack_handles w) rest, [])
        | true :: rest =>
            (Ok tt, mkWorld (gatts w) (led w) (stack_handles w) rest,
             [GattsNotify c value_handle data])
        | [] => (Ok tt, w, [GattsNotify c value_handle data])
        end
    end.

(** The tick counter of [time.ticks_ms] wraps around at [TICKS_PERIOD]
    (2^30 on the 32-bit ports); [clock] is the time in milliseconds since
    the counter's epoch. *)
Definition TICKS_PERIOD : Z := 2 ^ 30.

Definition ticks_ms (clock : Z) : Z := clock mod TICKS_PERIOD.

(** [time.ticks_diff(ticks1, ticks2)]: the signed difference on the ring of
    ticks, in [-TICKS_PERIOD/2, TICKS_PERIOD/2). *)
Definition ticks_diff (ticks1 ticks2 : Z) : Z :=
  (ticks1 - ticks2 + TICKS_PERIOD / 2) mod TICKS_PERIOD - TICKS_PERIOD / 2.

(** A radio event as the stack hands it to the handler: the event code and
    the triple [(conn_handle, addr_type, addr)]. *)
Definition irq : Type := Z * (Z * Z * list byte).

(** ** [class BLEKeyboard] (lines 37-94) *)

Module BLEKeyboard.

(** The fields of [self]. *)
Record t : Type := mk {
  _h_info : Z;
  _h_rep_map : Z;
  _h_rep : Z;
  _h_proto : Z;
  _h_ctrl : Z;
  _conn_handle : option Z;
  _payload : list byte
}.

(** Truth value of [self._conn_handle]: [None] and [0] are false. *)
Definition conn_truthy (c : option Z) : bool :=
  match c with
  | Some h => negb (h =? 0)
  | None => false
  end.

Definition set_conn_handle (self : t) (c : option Z) : t :=
  mk (_h_info self) (_h_rep_map self) (_h_rep self) (_h_proto self)
     (_h_ctrl self) c (_payload self).

(** The default of the parameter [name] of [__init__]. *)
Definition default_name : string := "ESP Space".

(** Methods run on the object and the environment: [self] is mutable and
    shared with the event handler. *)
Abbreviation K := (ST (t * world)).

(** An operation on the environment, within a method. *)
Definition dev {A} (m : M A) : K A :=
  fun s =>
    match m (snd s) with
    | (r, w, tr) => (r, (fst s, w), tr)
    end.

(** A method called on [self] from outside; it returns the object as the
    method leaves it. *)
Definition method {A} (self : t) (k : K A) : M t :=
  fun w =>
    match k (self, w) with
    | (Ok _, s, tr) => (Ok (fst s), snd s, tr)
    | (Raise e, s, tr) => (Raise e, snd s, tr)
    end.

Definition get_self : K t := fun s => (Ok (fst s), s, []).

(** [self._conn_handle = c]. *)
Definition assign_conn_handle (c : option Z) : K unit :=
  fun s => (Ok tt, (set_conn_handle (fst s) c, snd s), []).

Definition _advertise : K unit :=
  (let* self := get_self in
   gap_advertise 500000 (_payload self))%M.

Definition __init__ (name : string) : M t :=
  (ble_active true ;;;
   ble_irq ;;;
   let* hs := gatts_register_services
     [ (_HID_SERVICE_UUID,
        [ (_HID_INFO_UUID, FLAG_READ);
          (_HID_REPORT_MAP_UUID, FLAG_READ);
          (_HID_REPORT_UUID, Z.lor (Z.lor FLAG_READ FLAG_NOTIFY) FLAG_WRITE);
          (_HID_PROTO_MODE_UUID, Z.lor FLAG_READ FLAG_WRITE);
          (_HID_CONTROL_POINT_UUID, FLAG_WRITE) ]) ] in
   let '(h_info, h_rep_map, h_rep, h_proto, h_ctrl) := hs in
   gatts_write h_info [x11; x01; x00; x02]%byte ;;;
   gatts_write h_rep_map _HID_REPORT_DESC ;;;
   gatts_write h_proto [x01]%byte ;;;
   gatts_write h_rep [x00; x00; x00; x00; x00; x00; x00; x00]%byte ;;;
   gatts_write h_ctrl [x00]%byte ;;;
   let payload := advertising_payload false false (Some name)
                    _ADV_APPEARANCE_KEYBOARD in
   let self := mk h_info h_rep_map h_rep h_proto h_ctrl None payload in
   let* self := method self _advertise in
   print (MsgBleReady name) ;;;
   ret self)%M.

(** [data] is the triple [(conn_handle, addr_type, addr)]. *)
Definition _irq (event : Z) (data : Z * Z * list byte) : K unit :=
  (if event =? _IRQ_CENTRAL_CONNECT then
     let '(conn_handle, _, _) := data in
     assign_conn_handle (Some conn_handle) ;;;
     print MsgConnected
   else if event =? _IRQ_CENTRAL_DISCONNECT then
     assign_conn_handle None ;;;
     print MsgDisconnected ;;;
     _advertise
   else ret tt)%M.

(** The radio stack runs the handler on the events that arrive while a
    method is under way. *)
Fixpoint deliver (events : list irq) : K unit :=
  match events with
  | [] => ret tt
  | (event, data) :: rest => (_irq event data ;;; deliver rest)%M
  end.

(** [send_key] reads [self._conn_handle] three times: for the test of line
    84 and as an argument at lines 88 and 94.  [after_guard] are the radio
    events handled between the test and the first notification, [in_hold]
    those handled during the hold; an event that arrives at another moment
    of the call acts as one before or after the call. *)
Definition send_key (key_code : Z) (after_guard in_hold : list irq) : K unit :=
  (emit (CallSendKey key_code) ;;;
   let* self := get_self in
   if negb (conn_truthy (_conn_handle self)) then ret tt
   else
     deliver after_guard ;;;
     let* self := get_self in
     dev (gatts_notify (_conn_handle self) (_h_rep self)
            (pack_Bs [0; 0; key_code; 0; 0; 0; 0; 0])) ;;;
     sleep_ms KEY_HOLD_TIME_MS ;;;
     deliver in_hold ;;;
     let* self := get_self in
     dev (gatts_notify (_conn_handle self) (_h_rep self)
            (pack_Bs [0; 0; 0; 0; 0; 0; 0; 0])))%M.

End BLEKeyboard.

(** ** [main] (lines 111-136) *)

(** What the environment answers during one iteration: what
    [touch.read()] does (it returns the reading, or the driver raises an
    exception), the time at which [time.ticks_ms()] is consulted, and the
    radio events it delivers while [send_key] is under way (should the
    iteration call it and reach these moments): between the test of the
    handle and the key-down notification, and during the hold.  An event
    delivered at another moment of the iteration changes the handle as an
    event delivered before or after the iteration does. *)
Record poll : Type := mkPollIrq {
  touch_read : result Z;
  clock : Z;
  irq_after_guard : list irq;
  irq_in_hold : list irq
}.

(** An iteration during which no radio event is delivered. *)
Definition mkPoll (reading : result Z) (time : Z) : poll :=
  mkPollIrq reading time [] [].

Definition KEY_SPACE : Z := 0x2C.

(** The body of [while True] (lines 123-136), run on the keyboard object
    [kb]: it returns the value of [last_press_time] at the end of the
    iteration. *)
Definition loop_body (last_press_time : Z) (p : poll) : BLEKeyboard.K Z :=
  try_except_OSError
    (let* val := lift (touch_read p) in
     let* last_press_time :=
       (if val <? TOUCH_THRESHOLD then
          let now := ticks_ms (clock p) in
          if ticks_diff now last_press_time >? DEBOUNCE_MS then
            print (MsgTouch val) ;;;
            BLEKeyboard.dev (led_value 1) ;;;
            BLEKeyboard.send_key KEY_SPACE (irq_after_guard p) (irq_in_hold p) ;;;
            BLEKeyboard.dev (led_value 0) ;;;
            ret now
          else ret last_press_time
        else ret last_press_time) in
     sleep_ms 20 ;;;
     ret last_press_time)%M
    (fun e => print (MsgError e) ;;; sleep 1 ;;; ret last_press_time)%M.

(** The program state between two iterations.  [halted] holds the exception
    that ended the program, if one escaped; the model follows a halted
    program no further. *)
Record state : Type := mkState {
  kb : BLEKeyboard.t;
  last_press_time : Z;
  env : world;
  halted : option exn
}.

(** Lines 112-120: everything before the loop; [BLEKeyboard()] takes the
    default name. *)
Definition main_init (w : world) : state * list action :=
  match (led_value 0 ;;;
         let* kb := BLEKeyboard.__init__ BLEKeyboard.default_name in
         print MsgStarted ;;;
         ret kb)%M w with
  | (Ok kb, w', t) => (mkState kb 0 w' None, t)
  | (Raise e, w', t) =>
      (mkState (BLEKeyboard.mk 0 0 0 0 0 None []) 0 w' (Some e), t)
  end.

(** What happens to the running program: the radio stack delivers an event
    to [_irq] between two iterations, or the loop runs one iteration (with
    the events delivered during it). *)
Inductive stimulus : Type :=
| Irq (event : Z) (data : Z * Z * list byte)
| Poll (p : poll).

Definition step (s : state) (x : stimulus) : state * list action :=
  match halted s with
  | Some _ => (s, [])
  | None =>
      match x with
      | Irq event data =>
          match BLEKeyboard._irq event data (kb s, env s) with
          | (Ok _, s', t) => (mkState (fst s') (last_press_time s) (snd s') None, t)
          | (Raise e, s', t) =>
              (mkState (fst s') (last_press_time s) (snd s') (Some e), t)
          end
      | Poll p =>
          match loop_body (last_press_time s) p (kb s, env s) with
          | (Ok l, s', t) => (mkState (fst s') l (snd s') None, t)
          | (Raise e, s', t) =>
              (mkState (fst s') (last_press_time s) (snd s') (Some e), t)
          end
      end
  end.

(** The trace of each stimulus in turn, and the final state. *)
Fixpoint run (s : state) (xs : list stimulus) : state * list (list action) :=
  match xs with
  | [] => (s, [])
  | x :: xs' =>
      let (s1, t) := step s x in
      let (s2, ts) := run s1 xs' in
      (s2, t :: ts)
  end.

(** ** Observations on traces *)

Definition is_call (a : action) : bool :=
  match a with CallSendKey _ => true | _ => false end.

Definition is_notify (a : action) : bool :=
  match a with GattsNotify _ _ _ => true | _ => false end.

Definition is_error (a : action) : bool :=
  match a with Print (MsgError _) => true | _ => false end.

(** A key event: the iteration called [send_key]. *)
Definition fired (t : list action) : bool := existsb is_call t.

(** An accepted event: [send_key] was called and the iteration ran to its
    end, so that [last_press_time] was recorded. *)
Definition accepted (t : list action) : bool :=
  fired t && negb (existsb is_error t).

Definition notifications (t : list action) : list action :=
  List.filter is_notify t.

Definition send_key_calls (ts : list (list action)) : nat :=
  List.length (List.filter is_call (List.concat ts)).

Definition ble0 : world :=
  mkWorld ∅ 0 (16, 18, 20, 23, 25) [].

Definition scenario (t0 : Z) : list stimulus :=
  [ Poll (mkPoll (Ok 900) t0);
    Poll (mkPoll (Ok 900) (t0 + 20));
    Poll (mkPoll (Ok 750) (t0 + 40));
    Poll (mkPoll (Ok 900) (t0 + 60)) ].

(** ** The layout of an advertising payload *)

(** One advertising field [[length][type][value...]], the length counting
    the type byte and the value bytes. *)
Definition adv_field (adv_type : byte) (value f : list byte) : Prop :=
  exists len : byte,
    f = len :: adv_type :: value /\
    Z_of_byte len = 1 + Z.of_nat (List.length value).

Definition flags_value (limited_disc br_edr : bool) : Z :=
  (if limited_disc then 2 else 6) + (if br_edr then 0 else 4).

(** The payload as the specification lays it out: flags, name when
    non-empty, little-endian appearance when nonzero, service UUID 0x1812. *)
Definition payload_layout (limited_disc br_edr : bool) (name : option string)
    (appearance : Z) (p : list byte) : Prop :=
  exists f_flags f_name f_appearance f_uuid : list byte,
    p = f_flags ++ f_name ++ f_appearance ++ f_uuid /\
    (exists fl, adv_field x01 [fl] f_flags /\
                Z_of_byte fl = flags_value limited_disc br_edr) /\
    (if name_truthy name
     then adv_field x09 (name_bytes name) f_name
     else f_name = []) /\
    (if appearance =? 0
     then f_appearance = []
     else exists lo hi, adv_field x19 [lo; hi] f_appearance /\
            Z_of_byte lo + 256 * Z_of_byte hi = appearance mod 65536) /\
    adv_field x03 [x12; x18]%byte f_uuid.

(** The payload the builder returns has the layout, and the same inputs
    give the same bytes. *)
Definition builds_layout (limited_disc br_edr : bool) (name : option string)
    (appearance : Z) : Prop :=
  payload_layout limited_disc br_edr name appearance
    (advertising_payload limited_disc br_edr name appearance) /\
  (forall p1 p2,
     p1 = advertising_payload limited_disc br_edr name appearance ->
     p2 = advertising_payload limited_disc br_edr name appearance ->
     p1 = p2).

(** The number of bytes of the name, and the number of its characters. *)
Definition name_length (name : option string) : Z :=
  Z.of_nat (List.length (name_bytes name)).

Definition name_chars (name : option string) : Z :=
  match name with
  | Some s => Z.of_nat (str_len s)
  | None => 0
  end.

(** A name of 255 letters A. *)
Definition long_name : string := string_of_list_byte (repeat x41 255).

(** The name made of the one character e-acute, two bytes in UTF-8. *)
Definition e_acute : string := string_of_list_byte [xc3; xa9].

(** ** Reachable states and well-behaved environments *)

(** The radio stack hands out five distinct value handles. *)
Definition distinct_handles (w : world) : Prop :=
  let '(h_info, h_rep_map, h_rep, h_proto, h_ctrl) := stack_handles w in
  NoDup [h_info; h_rep_map; h_rep; h_proto; h_ctrl].

(** The radio accepts every notification to come. *)
Definition radio_reliable (w : world) : Prop :=
  forallb (fun ok : bool => ok) (radio_script w) = true.

(** A key-down frame for [key_code] and the key-up frame. *)
Definition key_down_frame (key_code : Z) : list byte :=
  [x00; x00; byte_of_Z key_code; x00; x00; x00; x00; x00].

Definition key_up_frame : list byte :=
  [x00; x00; x00; x00; x00; x00; x00; x00].

(** ** Touches and key events *)

(** The reading of the iteration is below the threshold. *)
Definition touching (p : poll) : bool :=
  match touch_read p with
  | Ok v => v <? TOUCH_THRESHOLD
  | Raise _ => false
  end.

(** The condition under which an iteration calls [send_key]. *)
Definition fires (last : Z) (p : poll) : bool :=
  touching p && (ticks_diff (ticks_ms (clock p)) last >? DEBOUNCE_MS).

(** The key events of a run, one boolean per stimulus. *)
Definition key_events (ts : list (list action)) : list bool := map fired ts.

(** The time of a stimulus, when it is a poll. *)
Definition early (x : stimulus) : Prop :=
  match x with
  | Poll p => 0 <= clock p <= DEBOUNCE_MS
  | Irq _ _ => True
  end.

(** A finger held on the pad for 320 ms: 17 readings of 700, 20 ms apart,
    the first one second after the tick epoch. *)
Definition held_touch : list stimulus :=
  map (fun k => Poll (mkPoll (Ok 700) (1000 + 20 * Z.of_nat k))) (seq 0 17).

(** The state in which stimulus [j] of a run is taken. *)
Definition state_before (s : state) (xs : list stimulus) (j : nat) : state :=
  fst (run s (firstn j xs)).

(** Whether a stimulus must call [send_key], given [last_press_time]. *)
Definition expected_fire (last : Z) (x : stimulus) : bool :=
  match x with
  | Poll p => fires last p
  | Irq _ _ => false
  end.

(** The program after its startup on the environment [ble0]. *)
Definition booted : state := fst (main_init ble0).

(** Two touches, 400 ms apart. *)
Definition two_touches : list stimulus :=
  [ Poll (mkPoll (Ok 700) 1000); Poll (mkPoll (Ok 700) 1400) ].

(** A stimulus that cannot call [send_key] from [last_press_time = last]. *)
Definition quiet (last : Z) (x : stimulus) : Prop :=
  expected_fire last x = false.

(** A poll of a sustained touch with entry poll [p]: the reading is below
    the threshold and it is taken at most DEBOUNCE_MS after the entry. *)
Definition held_within_window (p q : poll) : Prop :=
  touching q = true /\ 0 <= clock q - clock p <= DEBOUNCE_MS.

(** ** Observations on runs *)

Definition is_adv (a : action) : bool :=
  match a with GapAdvertise _ _ => true | _ => false end.

Definition is_disconnect (x : stimulus) : bool :=
  match x with
  | Irq event _ => event =? _IRQ_CENTRAL_DISCONNECT
  | Poll _ => false
  end.

Definition is_connect (x : stimulus) : bool :=
  match x with
  | Irq event _ => event =? _IRQ_CENTRAL_CONNECT
  | Poll _ => false
  end.

(** No radio event is delivered in the middle of the iteration: events
    come between iterations only. *)
Definition calm_poll (p : poll) : Prop :=
  irq_after_guard p = [] /\ irq_in_hold p = [].

Definition calm (x : stimulus) : Prop :=
  match x with
  | Poll p => calm_poll p
  | Irq _ _ => True
  end.

(** The sensor read returns, or fails with the exception the loop is
    prepared for. *)
Definition sensor_ok (p : poll) : Prop :=
  match touch_read p with
  | Ok _ => True
  | Raise e => e = OSError
  end.

Definition reads_ok (x : stimulus) : Prop :=
  match x with
  | Poll p => sensor_ok p
  | Irq _ _ => True
  end.

(** The connection handle a stimulus leaves behind: a connect event
    delivers one, a disconnect event clears it, nothing else matters. *)
Definition conn_after_event (c : option Z) (x : stimulus) : option Z :=
  match x with
  | Irq event (h, _, _) =>
      if event =? _IRQ_CENTRAL_CONNECT then Some h
      else if event =? _IRQ_CENTRAL_DISCONNECT then None
      else c
  | Poll _ => c
  end.

Definition conn_after (c : option Z) (xs : list stimulus) : option Z :=
  fold_left conn_after_event xs c.

(** The handle left by the events delivered during a method. *)
Definition conn_after_irqs (c : option Z) (events : list irq) : option Z :=
  fold_left (fun c (e : irq) => conn_after_event c (Irq (fst e) (snd e)))
            events c.

(** What an action of the running loop may be: console, LED and sleeps;
    a call of [send_key] with the space key; a notification of the key-down
    frame of the space key or of the key-up frame, on the Input Report
    characteristic [h_rep], to a nonzero connection handle. *)
Definition loop_action_ok (h_rep : Z) (a : action) : Prop :=
  match a with
  | Print _ | LedValue _ | SleepMs _ | Sleep _ => True
  | CallSendKey key_code => key_code = KEY_SPACE
  | GattsNotify c h data =>
      c <> 0 /\ h = h_rep /\
      (data = key_down_frame KEY_SPACE \/ data = key_up_frame)
  | BleActive _ | BleIrq | GattsRegisterServices _ | GattsWrite _ _
  | GapAdvertise _ _ => False
  end.

(** What an action of the running program may be: an action of the loop,
    or an advertisement (from the disconnect handler). *)
Definition run_action_ok (h_rep : Z) (a : action) : Prop :=
  loop_action_ok h_rep a \/ is_adv a = true.

(** The notifications of one key press: key-down, then key-up, or none. *)
Definition press_or_nothing (h_rep : Z) (t : list action) : Prop :=
  notifications t = [] \/
  exists c,
    c <> 0 /\
    notifications t
    = [GattsNotify c h_rep (key_down_frame KEY_SPACE);
       GattsNotify c h_rep key_up_frame].

(** A disconnect event that arrives during the hold of [send_key]. *)
Definition disconnect_in_hold (reading time : Z) : poll :=
  mkPollIrq (Ok reading) time [] [(_IRQ_CENTRAL_DISCONNECT, (3, 0, []))].

(** What the handler prints and advertises on an event, and on a list of
    events. *)
Definition irq_trace (self : BLEKeyboard.t) (event : Z) : list action :=
  if event =? _IRQ_CENTRAL_CONNECT then [Print MsgConnected]
  else if event =? _IRQ_CENTRAL_DISCONNECT
       then [Print MsgDisconnected;
             GapAdvertise 500000 (BLEKeyboard._payload self)]
       else [].

Definition irqs_trace (self : BLEKeyboard.t) (events : list irq)
  : list action :=
  List.concat (map (fun e : irq => irq_trace self (fst e)) events).

(** * Proofs *)

(** ** Bytes and [struct.pack] *)

Lemma Z_of_byte_range (b : byte) : 0 <= Z_of_byte b <= 255.
Proof.
  unfold Z_of_byte. pose proof (Byte.to_N_bounded b). lia.
Qed.

(** [byte_of_Z] keeps the low 8 bits. *)
Lemma Z_of_byte_of_Z_mod (v : Z) : Z_of_byte (byte_of_Z v) = v mod 256.
Proof.
  unfold Z_of_byte, byte_of_Z.
  pose proof (Z.mod_pos_bound v 256 ltac:(lia)) as Hm.
  destruct (Byte.of_N (Z.to_N (v mod 256))) as [b|] eqn:E.
  - apply Byte.to_of_N in E. rewrite E. lia.
  - apply Byte.of_N_None_iff in E. lia.
Qed.

Lemma Z_of_byte_of_Z (v : Z) : 0 <= v <= 255 -> Z_of_byte (byte_of_Z v) = v.
Proof.
  intros Hv. rewrite Z_of_byte_of_Z_mod. apply Z.mod_small. lia.
Qed.

Lemma byte_of_Z_of_byte (b : byte) : byte_of_Z (Z_of_byte b) = b.
Proof.
  unfold byte_of_Z. rewrite Z.mod_small by (pose proof (Z_of_byte_range b); lia).
  unfold Z_of_byte. rewrite N2Z.id, Byte.of_to_N. reflexivity.
Qed.

Lemma length_list_byte_of_string (s : string) :
  List.length (list_byte_of_string s) = String.length s.
Proof.
  induction s as [|c s IH]; simpl; [reflexivity|].
  f_equal. exact IH.
Qed.

(** A [str] has at most as many characters as bytes. *)
Lemma str_len_le (s : string) :
  (str_len s <= List.length (list_byte_of_string s))%nat.
Proof. unfold str_len. apply List.filter_length_le. Qed.

Lemma name_chars_le (name : option string) :
  0 <= name_chars name <= name_length name.
Proof.
  unfold name_chars, name_length. destruct name as [s|]; cbn; [|lia].
  pose proof (str_len_le s). lia.
Qed.

Lemma le16_value (v : Z) :
  Z_of_byte (byte_of_Z ((v mod 65536) mod 256))
  + 256 * Z_of_byte (byte_of_Z ((v mod 65536) / 256)) = v mod 65536.
Proof.
  pose proof (Z.mod_pos_bound v 65536 ltac:(lia)) as Hu.
  pose proof (Z.mod_pos_bound (v mod 65536) 256 ltac:(lia)) as Hlo.
  assert (Hhi : 0 <= (v mod 65536) / 256 <= 255).
  { split; [apply Z.div_pos; lia|].
    apply Z.lt_succ_r. apply Z.div_lt_upper_bound; lia. }
  rewrite !Z_of_byte_of_Z by lia.
  rewrite (Z.div_mod (v mod 65536) 256) at 3 by lia. lia.
Qed.

(** ** The advertising payload *)

Example payload_esp_space :
  advertising_payload false false (Some "ESP Space"%string) 961
  = [ x02; x01; x0a;
      x0a; x09; x45; x53; x50; x20; x53; x70; x61; x63; x65;
      x03; x19; xc1; x03;
      x03; x03; x12; x18 ]%byte.
Proof. reflexivity. Qed.

(** The bytes the builder returns. *)
Lemma advertising_payload_bytes (limited_disc br_edr : bool)
    (name : option string) (appearance : Z) :
  advertising_payload limited_disc br_edr name appearance
  = [x02; x01; byte_of_Z (flags_value limited_disc br_edr)]
    ++ (if name_truthy name
        then byte_of_Z (name_chars name + 1) :: x09 :: name_bytes name
        else [])
    ++ (if appearance =? 0
        then []
        else [x03; x19; byte_of_Z ((appearance mod 65536) mod 256);
              byte_of_Z ((appearance mod 65536) / 256)])
    ++ [x03; x03; x12; x18].
Proof.
  unfold advertising_payload, _append, pack_Bs, pack_B, pack_h_le, flags_value.
  destruct name as [s|]; cbn [name_truthy name_chars name_bytes].
  - destruct (negb (String.length s =? 0)%nat);
      destruct (appearance =? 0); cbn [negb];
      cbn [py_len buffer List.length map app];
      rewrite <- ?List.app_assoc; reflexivity.
  - destruct (appearance =? 0); cbn [negb];
      cbn [py_len buffer List.length map app];
      rewrite <- ?List.app_assoc; reflexivity.
Qed.

(** The layout holds when the length byte of the name field can hold the
    number of bytes of the name and the name has as many characters as
    bytes. *)
Lemma payload_layout_intro (limited_disc br_edr : bool)
    (name : option string) (appearance : Z) :
  (name_truthy name = true ->
   name_chars name = name_length name /\ name_length name <= 254) ->
  payload_layout limited_disc br_edr name appearance
    (advertising_payload limited_disc br_edr name appearance).
Proof.
  intros Hname. rewrite advertising_payload_bytes.
  unfold payload_layout. do 4 eexists. split; [reflexivity|].
  assert (Hfl : 0 <= flags_value limited_disc br_edr <= 255)
    by (destruct limited_disc, br_edr; cbv; split; discriminate).
  split; [|split; [|split]].
  - exists (byte_of_Z (flags_value limited_disc br_edr)). split.
    + exists x02. split; reflexivity.
    + apply Z_of_byte_of_Z. exact Hfl.
  - destruct (name_truthy name); [|reflexivity].
    destruct (Hname eq_refl) as [Hc Hl].
    exists (byte_of_Z (name_chars name + 1)). split; [reflexivity|].
    pose proof (name_chars_le name).
    unfold name_length in *. rewrite Z_of_byte_of_Z by lia. lia.
  - destruct (appearance =? 0); [reflexivity|].
    do 2 eexists. split.
    + exists x03. split; reflexivity.
    + apply le16_value.
  - exists x03. split; reflexivity.
Qed.

(** Conversely, the layout of the returned payload forces the length byte
    of the name field to be 1 + the number of bytes of the name. *)
Lemma payload_layout_name_field (limited_disc br_edr : bool)
    (name : option string) (appearance : Z) :
  payload_layout limited_disc br_edr name appearance
    (advertising_payload limited_disc br_edr name appearance) ->
  name_truthy name = true ->
  (name_chars name + 1) mod 256 = 1 + name_length name.
Proof.
  intros (f1 & f2 & f3 & f4 & Hp & (fl & (len1 & -> & _) & _) & Hn & _) Ht.
  rewrite Ht in Hn. destruct Hn as (len2 & -> & Hlen2).
  rewrite advertising_payload_bytes, Ht in Hp. cbn in Hp.
  injection Hp as _ _ Hb _.
  rewrite <- Hb, Z_of_byte_of_Z_mod in Hlen2. exact Hlen2.
Qed.

Lemma payload_layout_elim (limited_disc br_edr : bool)
    (name : option string) (appearance : Z) :
  payload_layout limited_disc br_edr name appearance
    (advertising_payload limited_disc br_edr name appearance) ->
  name_truthy name = true ->
  name_chars name = name_length name /\ name_length name <= 254.
Proof.
  intros Hl Ht.
  pose proof (payload_layout_name_field _ _ _ _ Hl Ht) as Hm.
  pose proof (name_chars_le name) as Hc.
  pose proof (Z.mod_pos_bound (name_chars name + 1) 256 ltac:(lia)) as Hb.
  assert (Hsmall : name_chars name + 1 < 256) by lia.
  rewrite Z.mod_small in Hm by lia. lia.
Qed.

(** C4 (as amended): for every name of at most 254 bytes that has as many
    characters as bytes (an ASCII name) and every appearance code, the
    builder returns, in order, a flags field, a complete-local-name field
    exactly when the name is non-empty, a little-endian appearance field
    (the low 16 bits of the code) exactly when the code is nonzero, and a
    service-UUID field with value bytes 12 18, each field encoded as length,
    type, value with length = 1 + number of value bytes; and the same inputs
    give the same bytes. *)
Theorem advertising_payload_layout (limited_disc br_edr : bool)
    (name : option string) (appearance : Z) :
  name_length name <= 254 ->
  name_chars name = name_length name ->
  builds_layout limited_disc br_edr name appearance.
Proof.
  intros Hlen Hchars. split.
  - apply payload_layout_intro. intros _. split; assumption.
  - intros p1 p2 -> ->. reflexivity.
Qed.

Lemma advertising_payload_layout_witness :
  builds_layout false false (Some "ESP Space"%string) 961.
Proof.
  apply advertising_payload_layout; [vm_compute; discriminate | reflexivity].
Defined.

(** C4 (as stated) fails.  For the name e-acute, one character of two
    bytes, the length byte of the name field is 2 where the field has 3
    bytes after it; for a name of 255 letters the length byte is 0. *)
Lemma advertising_payload_layout_fails :
  ~ builds_layout false false (Some e_acute) 961 /\
  ~ builds_layout false false (Some long_name) 961 /\
  nth_error (advertising_payload false false (Some e_acute) 961) 3 = Some x02 /\
  nth_error (advertising_payload false false (Some long_name) 961) 3 = Some x00.
Proof.
  split; [|split; [|split; reflexivity]].
  - intros [Hl _]. apply payload_layout_elim in Hl; [|reflexivity].
    vm_compute in Hl. destruct Hl as [Hl _]. discriminate Hl.
  - intros [Hl _]. apply payload_layout_elim in Hl; [|reflexivity].
    vm_compute in Hl. destruct Hl as [_ Hl]. apply Hl. reflexivity.
Qed.

(** C8: the builder has no error condition.  For every name and every
    appearance code it returns the byte sequence made of the flags field,
    the name field when the name is non-empty, the appearance field when the
    code is nonzero and the service-UUID field: a value that does not fit
    (a name of 255 characters or more, an appearance beyond 16 bits) is
    truncated by [struct.pack], not rejected.  Being a function of its
    inputs, the builder is deterministic and has no effect. *)
Theorem advertising_payload_total (limited_disc br_edr : bool)
    (name : option string) (appearance : Z) :
  exists fl len lo hi : byte,
    advertising_payload limited_disc br_edr name appearance
    = [x02; x01; fl]
      ++ (if name_truthy name then len :: x09 :: name_bytes name else [])
      ++ (if appearance =? 0 then [] else [x03; x19; lo; hi])
      ++ [x03; x03; x12; x18] /\
    Z_of_byte fl = flags_value limited_disc br_edr /\
    Z_of_byte len = (name_chars name + 1) mod 256 /\
    Z_of_byte lo + 256 * Z_of_byte hi = appearance mod 65536.
Proof.
  do 4 eexists. split; [apply advertising_payload_bytes|].
  split; [|split].
  - apply Z_of_byte_of_Z. destruct limited_disc, br_edr; cbv; split; discriminate.
  - apply Z_of_byte_of_Z_mod.
  - apply le16_value.
Qed.

(** ** The HID service *)

Arguments ticks_diff : simpl never.
Arguments ticks_ms : simpl never.

(** Initialization returns, whatever the device name, and leaves the five
    characteristics with their documented values. *)
Lemma init_returns (name : string) (w : world) :
  exists self w' t,
    BLEKeyboard.__init__ name w = (Ok self, w', t) /\
    BLEKeyboard._payload self
    = advertising_payload false false (Some name) _ADV_APPEARANCE_KEYBOARD /\
    BLEKeyboard._conn_handle self = None /\
    (BLEKeyboard._h_info self, BLEKeyboard._h_rep_map self,
     BLEKeyboard._h_rep self, BLEKeyboard._h_proto self,
     BLEKeyboard._h_ctrl self) = stack_handles w /\
    gatts w' =
      <[BLEKeyboard._h_ctrl self := [x00]]>
      (<[BLEKeyboard._h_rep self := key_up_frame]>
       (<[BLEKeyboard._h_proto self := [x01]]>
        (<[BLEKeyboard._h_rep_map self := _HID_REPORT_DESC]>
         (<[BLEKeyboard._h_info self := [x11; x01; x00; x02]]> (gatts w))))) /\
    led w' = led w /\ radio_script w' = radio_script w /\
    stack_handles w' = stack_handles w /\
    In (GapAdvertise 500000 (BLEKeyboard._payload self)) t.
Proof.
  unfold BLEKeyboard.__init__.
  destruct (stack_handles w) as [[[[h1 h2] h3] h4] h5] eqn:Hh.
  unfold bind, ble_active, ble_irq, emit, gatts_register_services, gatts_write,
    BLEKeyboard.method, BLEKeyboard._advertise, BLEKeyboard.get_self,
    gap_advertise, bind, emit, print, emit, ret.
  cbn - [advertising_payload _HID_REPORT_DESC].
  rewrite Hh. cbn - [advertising_payload _HID_REPORT_DESC].
  do 3 eexists.
  split; [reflexivity|].
  cbn - [advertising_payload _HID_REPORT_DESC].
  repeat split; try reflexivity; try exact Hh.
  do 8 right. left. reflexivity.
Qed.

(** C5: after initialization the five characteristics hold HID Information
    = 11 01 00 02, Report Map = the fixed 45-byte descriptor, Input Report =
    8 zero bytes, Protocol Mode = 01 and Control Point = 00. *)
Theorem init_characteristic_values (name : string) (w : world) :
  distinct_handles w ->
  exists self w' t,
    BLEKeyboard.__init__ name w = (Ok self, w', t) /\
    gatts w' !! BLEKeyboard._h_info self = Some [x11; x01; x00; x02] /\
    gatts w' !! BLEKeyboard._h_rep_map self = Some _HID_REPORT_DESC /\
    List.length _HID_REPORT_DESC = 45%nat /\
    gatts w' !! BLEKeyboard._h_rep self
      = Some [x00; x00; x00; x00; x00; x00; x00; x00] /\
    gatts w' !! BLEKeyboard._h_proto self = Some [x01] /\
    gatts w' !! BLEKeyboard._h_ctrl self = Some [x00].
Proof.
  intros Hdist.
  destruct (init_returns name w)
    as (self & w' & t & Hinit & _ & _ & Hhs & Hg & _).
  exists self, w', t. split; [exact Hinit|].
  unfold distinct_handles in Hdist. rewrite <- Hhs in Hdist.
  repeat match goal with
         | H : NoDup (_ :: _) |- _ => apply NoDup_cons in H; destruct H
         end.
  repeat match goal with
         | H : ~ _ ∈ _ |- _ => rewrite !not_elem_of_cons in H
         end.
  rewrite Hg. unfold key_up_frame.
  destruct_and!.
  repeat split; try reflexivity;
    repeat (rewrite lookup_insert_ne by congruence); apply lookup_insert_eq.
Qed.

Lemma init_characteristic_values_witness :
  exists self w' t,
    BLEKeyboard.__init__ "ESP Space" ble0 = (Ok self, w', t) /\
    gatts w' !! BLEKeyboard._h_info self = Some [x11; x01; x00; x02] /\
    gatts w' !! BLEKeyboard._h_rep_map self = Some _HID_REPORT_DESC /\
    List.length _HID_REPORT_DESC = 45%nat /\
    gatts w' !! BLEKeyboard._h_rep self
      = Some [x00; x00; x00; x00; x00; x00; x00; x00] /\
    gatts w' !! BLEKeyboard._h_proto self = Some [x01] /\
    gatts w' !! BLEKeyboard._h_ctrl self = Some [x00].
Proof.
  apply init_characteristic_values.
  unfold distinct_handles, ble0. cbn [stack_handles].
  repeat (apply NoDup_cons_2;
          [rewrite ?not_elem_of_cons; repeat split;
           try lia; apply not_elem_of_nil|]).
  apply NoDup_nil_2.
Defined.

Lemma radio_reliable_cases (w : world) :
  radio_reliable w ->
  radio_script w = [] \/
  exists rest, radio_script w = true :: rest /\ forallb (fun ok : bool => ok) rest = true.
Proof.
  unfold radio_reliable. destruct (radio_script w) as [|[] rest]; cbn; intros H.
  - left. reflexivity.
  - right. exists rest. split; [reflexivity|exact H].
  - discriminate H.
Qed.

(** The methods, unfolded down to the environment. *)
Ltac unfold_methods :=
  unfold BLEKeyboard.send_key, BLEKeyboard.deliver, BLEKeyboard._irq,
    BLEKeyboard._advertise, BLEKeyboard.assign_conn_handle,
    BLEKeyboard.get_self, BLEKeyboard.dev, BLEKeyboard.conn_truthy,
    bind, lift, print, sleep_ms, sleep, gap_advertise, emit, ret, gatts_notify.

(** An uninterrupted call of [send_key] on a nonzero handle and an
    accepting radio. *)
Lemma send_key_frames (self : BLEKeyboard.t) (key_code c : Z) (w : world) :
  BLEKeyboard._conn_handle self = Some c -> c <> 0 ->
  radio_reliable w ->
  exists w',
    BLEKeyboard.send_key key_code [] [] (self, w)
    = (Ok tt, (self, w'),
       [CallSendKey key_code;
        GattsNotify c (BLEKeyboard._h_rep self) (key_down_frame key_code);
        SleepMs KEY_HOLD_TIME_MS;
        GattsNotify c (BLEKeyboard._h_rep self) key_up_frame]) /\
    gatts w' = gatts w /\ led w' = led w /\ radio_reliable w'.
Proof.
  intros Hc Hnz Hr. unfold_methods. cbn -[key_down_frame].
  rewrite Hc. assert (E : (c =? 0) = false) by lia. rewrite E.
  cbn -[key_down_frame]. rewrite Hc. unfold radio_reliable.
  destruct (radio_reliable_cases w Hr) as [Hs | [rest [Hs Hrest]]]; rewrite Hs.
  - cbn. rewrite Hc, Hs. eexists. split; [reflexivity|].
    repeat split. rewrite Hs. reflexivity.
  - cbn. rewrite Hc. destruct rest as [|[] rest']; cbn in Hrest |- *.
    + eexists. split; [reflexivity|]. repeat split.
    + eexists. split; [reflexivity|]. repeat split. exact Hrest.
    + discriminate Hrest.
Qed.

(** X1: with a nonzero stored handle, a key code that fits a byte and a
    radio that accepts the notifications, [send_key], when no radio event
    arrives during the call, notifies the key-down frame, sleeps for the
    hold time and notifies the all-zero key-up frame, both on the Input
    Report characteristic and the stored connection; characteristic values
    and LED are untouched. *)
Lemma send_key_notifies (self : BLEKeyboard.t) (key_code c : Z) (w : world) :
  BLEKeyboard._conn_handle self = Some c -> c <> 0 ->
  0 <= key_code <= 255 ->
  radio_reliable w ->
  exists w',
    BLEKeyboard.send_key key_code [] [] (self, w)
    = (Ok tt, (self, w'),
       [CallSendKey key_code;
        GattsNotify c (BLEKeyboard._h_rep self) (key_down_frame key_code);
        SleepMs KEY_HOLD_TIME_MS;
        GattsNotify c (BLEKeyboard._h_rep self) key_up_frame]) /\
    gatts w' = gatts w /\ led w' = led w /\ radio_reliable w'.
Proof.
  intros Hc Hnz _ Hr. apply send_key_frames; assumption.
Qed.

(** C9: [send_key] sends no notification when the stored handle is falsy,
    and a connect event that delivers handle 0 stores a handle ([Some 0], a
    host is connected) that is falsy: every key is then dropped. *)
Theorem send_key_falsy_handle (self : BLEKeyboard.t) (key_code : Z) (w : world)
    (after_guard in_hold : list irq) :
  BLEKeyboard.conn_truthy (BLEKeyboard._conn_handle self) = false ->
  (exists t,
     BLEKeyboard.send_key key_code after_guard in_hold (self, w)
     = (Ok tt, (self, w), t) /\
     notifications t = []) /\
  (forall (self0 : BLEKeyboard.t) (w0 : world) (addr_type : Z) (addr : list byte),
     exists self1 t0,
       BLEKeyboard._irq _IRQ_CENTRAL_CONNECT (0, addr_type, addr) (self0, w0)
       = (Ok tt, (self1, w0), t0) /\
       BLEKeyboard._conn_handle self1 = Some 0 /\
       BLEKeyboard.conn_truthy (BLEKeyboard._conn_handle self1) = false).
Proof.
  intros Hf. split.
  - exists [CallSendKey key_code]. split; [|reflexivity].
    unfold BLEKeyboard.send_key, bind, emit, BLEKeyboard.get_self, ret.
    cbn. rewrite Hf. reflexivity.
  - intros self0 w0 addr_type addr.
    exists (BLEKeyboard.set_conn_handle self0 (Some 0)), [Print MsgConnected].
    repeat split.
Qed.

Lemma send_key_falsy_handle_witness :
  (exists t,
     BLEKeyboard.send_key KEY_SPACE [] []
       (BLEKeyboard.mk 16 18 20 23 25 (Some 0) [], ble0)
     = (Ok tt, (BLEKeyboard.mk 16 18 20 23 25 (Some 0) [], ble0), t) /\
     notifications t = []) /\
  (forall (self0 : BLEKeyboard.t) (w0 : world) (addr_type : Z) (addr : list byte),
     exists self1 t0,
       BLEKeyboard._irq _IRQ_CENTRAL_CONNECT (0, addr_type, addr) (self0, w0)
       = (Ok tt, (self1, w0), t0) /\
       BLEKeyboard._conn_handle self1 = Some 0 /\
       BLEKeyboard.conn_truthy (BLEKeyboard._conn_handle self1) = false).
Proof.
  apply send_key_falsy_handle. reflexivity.
Defined.

(** C1 fails on the code: once the host's connect event has delivered
    connection handle 0, the handle is stored, yet [send_key(0x2C)] sends no
    notification at all. *)
Theorem send_key_connected_handle_zero :
  let s1 := fst (step booted (Irq _IRQ_CENTRAL_CONNECT (0, 0, []))) in
  halted s1 = None /\
  BLEKeyboard._conn_handle (kb s1) = Some 0 /\
  snd (BLEKeyboard.send_key KEY_SPACE [] [] (kb s1, env s1))
  = [CallSendKey KEY_SPACE] /\
  notifications (snd (BLEKeyboard.send_key KEY_SPACE [] [] (kb s1, env s1))) = [].
Proof. vm_compute. repeat split. Qed.

(** ** The event handler *)

Lemma set_conn_handle_id (self : BLEKeyboard.t) :
  BLEKeyboard.set_conn_handle self (BLEKeyboard._conn_handle self) = self.
Proof. destruct self; reflexivity. Qed.

(** The handler changes the stored handle and nothing else; it never
    raises. *)
Lemma _irq_spec (event : Z) (data : Z * Z * list byte) (self : BLEKeyboard.t)
    (w : world) :
  BLEKeyboard._irq event data (self, w)
  = (Ok tt,
     (BLEKeyboard.set_conn_handle self
        (conn_after_event (BLEKeyboard._conn_handle self) (Irq event data)), w),
     irq_trace self event).
Proof.
  unfold BLEKeyboard._irq, conn_after_event, irq_trace.
  destruct data as [[h a] b].
  destruct (event =? _IRQ_CENTRAL_CONNECT); [reflexivity|].
  destruct (event =? _IRQ_CENTRAL_DISCONNECT); [reflexivity|].
  unfold ret. rewrite set_conn_handle_id. reflexivity.
Qed.

Lemma deliver_spec (events : list irq) (self : BLEKeyboard.t) (w : world) :
  BLEKeyboard.deliver events (self, w)
  = (Ok tt,
     (BLEKeyboard.set_conn_handle self
        (conn_after_irqs (BLEKeyboard._conn_handle self) events), w),
     irqs_trace self events).
Proof.
  revert self. induction events as [|[event data] events IH]; intros self.
  - cbn. unfold ret. rewrite set_conn_handle_id. reflexivity.
  - cbn [BLEKeyboard.deliver]. unfold bind. rewrite _irq_spec, IH.
    reflexivity.
Qed.

Lemma irq_trace_facts (self : BLEKeyboard.t) (event : Z) :
  List.filter is_call (irq_trace self event) = [] /\
  existsb is_error (irq_trace self event) = false /\
  notifications (irq_trace self event) = [].
Proof.
  unfold irq_trace.
  destruct (event =? _IRQ_CENTRAL_CONNECT);
    [|destruct (event =? _IRQ_CENTRAL_DISCONNECT)]; repeat split.
Qed.

Lemma irqs_trace_facts (self : BLEKeyboard.t) (events : list irq) :
  List.filter is_call (irqs_trace self events) = [] /\
  existsb is_error (irqs_trace self events) = false /\
  notifications (irqs_trace self events) = [].
Proof.
  unfold irqs_trace, notifications.
  induction events as [|e events (IH1 & IH2 & IH3)]; [repeat split|].
  cbn [map List.concat].
  destruct (irq_trace_facts self (fst e)) as (H1 & H2 & H3).
  unfold notifications in H3.
  rewrite !List.filter_app, existsb_app, H1, H2, H3, IH1, IH2, IH3.
  repeat split.
Qed.

(** ** One iteration of the sampling loop *)

Lemma fired_calls (t : list action) :
  fired t = match List.filter is_call t with [] => false | _ :: _ => true end.
Proof.
  unfold fired. induction t as [|a t IH]; [reflexivity|].
  cbn. destruct (is_call a); cbn; [reflexivity|exact IH].
Qed.

(** What a call of [send_key] with the space key can do, whatever the
    radio answers and whatever events arrive during the call: it returns,
    or raises [OSError] (the radio rejects a notification) or [TypeError]
    (the handle was cleared during the call). *)
Lemma send_key_space_outcome (g h : list irq) (self : BLEKeyboard.t) (w : world) :
  exists r self' w' t,
    BLEKeyboard.send_key KEY_SPACE g h (self, w) = (r, (self', w'), t) /\
    (r = Ok tt \/ r = Raise OSError \/ r = Raise TypeError) /\
    List.filter is_call t = [CallSendKey KEY_SPACE] /\
    existsb is_error t = false /\
    gatts w' = gatts w /\ led w' = led w /\
    BLEKeyboard._payload self' = BLEKeyboard._payload self /\
    BLEKeyboard._h_rep self' = BLEKeyboard._h_rep self /\
    (radio_reliable w -> r <> Raise OSError /\ radio_reliable w').
Proof.
  unfold BLEKeyboard.send_key, bind, emit, BLEKeyboard.get_self, ret, sleep_ms,
    emit, BLEKeyboard.dev, gatts_notify, radio_reliable.
  cbn -[BLEKeyboard.deliver pack_Bs].
  destruct (BLEKeyboard.conn_truthy (BLEKeyboard._conn_handle self)); cbn [negb].
  2: { do 4 eexists. split; [reflexivity|]. cbn. repeat split; auto; discriminate. }
  rewrite deliver_spec. cbn -[BLEKeyboard.deliver pack_Bs].
  destruct (irqs_trace_facts self g) as (Hg1 & Hg2 & _).
  set (self1 := BLEKeyboard.set_conn_handle self _).
  destruct (irqs_trace_facts self1 h) as (Hh1 & Hh2 & _).
  destruct (conn_after_irqs (BLEKeyboard._conn_handle self) g) as [c1|].
  2: { do 4 eexists. split; [reflexivity|].
       rewrite List.app_nil_r. cbn. rewrite Hg1, Hg2.
       repeat split; auto; discriminate. }
  destruct (radio_script w) as [|[] rest] eqn:Hs;
    cbn -[BLEKeyboard.deliver pack_Bs]; rewrite ?deliver_spec;
    cbn -[BLEKeyboard.deliver pack_Bs].
  - destruct (conn_after_irqs (Some c1) h) as [c2|];
      cbn -[pack_Bs]; rewrite ?Hs; cbn -[pack_Bs];
      do 4 eexists; (split; [reflexivity|]);
      cbn -[pack_Bs]; rewrite ?List.filter_app, ?existsb_app, ?Hg1, ?Hg2;
      cbn -[pack_Bs]; rewrite ?List.filter_app, ?existsb_app, ?Hh1, ?Hh2;
      cbn; rewrite ?Hs; repeat split; auto; discriminate.
  - destruct (conn_after_irqs (Some c1) h) as [c2|];
      [destruct rest as [|[] rest']|];
      cbn -[pack_Bs];
      do 4 eexists; (split; [reflexivity|]);
      cbn -[pack_Bs]; rewrite ?List.filter_app, ?existsb_app, ?Hg1, ?Hg2;
      cbn -[pack_Bs]; rewrite ?List.filter_app, ?existsb_app, ?Hh1, ?Hh2;
      cbn; repeat split; auto; try discriminate.
  - do 4 eexists. split; [reflexivity|].
    rewrite List.app_nil_r. cbn. rewrite Hg1, Hg2.
    repeat split; auto; discriminate.
Qed.

(** An iteration returns the value of [last_press_time], or lets escape a
    [TypeError] of [send_key] or an exception of the sensor read that is no
    [OSError]; it calls [send_key], once, exactly
    when the reading is below the threshold and the tick counter shows more
    than the debounce window since [last_press_time]; and it records the
    time exactly when the event is accepted. *)
Lemma loop_body_spec (last : Z) (p : poll) (self : BLEKeyboard.t) (w : world) :
  exists r self' w' t,
    loop_body last p (self, w) = (r, (self', w'), t) /\
    (r = Ok (if accepted t then ticks_ms (clock p) else last) \/
     exists e, r = Raise e /\ e <> OSError /\
       (e = TypeError /\ fires last p = true \/ touch_read p = Raise e)) /\
    List.filter is_call t
      = (if fires last p then [CallSendKey KEY_SPACE] else []) /\
    gatts w' = gatts w /\
    BLEKeyboard._payload self' = BLEKeyboard._payload self /\
    BLEKeyboard._h_rep self' = BLEKeyboard._h_rep self /\
    (radio_reliable w ->
     radio_reliable w' /\ (r <> Raise TypeError -> accepted t = fires last p)).
Proof.
  unfold loop_body, fires, touching, try_except_OSError.
  destruct (touch_read p) as [v|e].
  - unfold bind at 1. unfold lift at 1.
    destruct (v <? TOUCH_THRESHOLD); cbn [andb].
    + destruct (ticks_diff (ticks_ms (clock p)) last >? DEBOUNCE_MS).
      * destruct (send_key_space_outcome (irq_after_guard p) (irq_in_hold p) self
                    (mkWorld (gatts w) 1 (stack_handles w) (radio_script w)))
          as (r & self1 & w1 & t1 & E & Hr & Hcall & Herr & Hg & _ & Hp & Hh & Hrel).
        unfold bind, print, led_value, emit, sleep_ms, sleep, ret,
          BLEKeyboard.dev.
        cbn -[BLEKeyboard.send_key]. rewrite E.
        destruct Hr as [-> | [-> | ->]].
        -- do 4 eexists. split; [reflexivity|].
           unfold accepted. rewrite fired_calls. cbn.
           rewrite !List.filter_app, !existsb_app, Hcall, Herr. cbn.
           split; [left; reflexivity|].
           split; [reflexivity|]. split; [exact Hg|].
           split; [exact Hp|]. split; [exact Hh|].
           intros Hw. destruct (Hrel Hw) as [_ Hw1].
           split; [exact Hw1|reflexivity].
        -- do 4 eexists. split; [reflexivity|].
           unfold accepted. rewrite fired_calls. cbn.
           rewrite !List.filter_app, !existsb_app, Hcall, Herr. cbn.
           split; [left; reflexivity|].
           split; [reflexivity|]. split; [exact Hg|].
           split; [exact Hp|]. split; [exact Hh|].
           intros Hw. destruct (Hrel Hw) as [Hw1 _]. contradiction Hw1. reflexivity.
        -- do 4 eexists. split; [reflexivity|].
           cbn. rewrite Hcall.
           split. { right. exists TypeError. repeat split; [discriminate|]. left. split; reflexivity. }
           split; [reflexivity|]. split; [exact Hg|].
           split; [exact Hp|]. split; [exact Hh|].
           intros Hw. destruct (Hrel Hw) as [_ Hw1].
           split; [exact Hw1|]. intros Hne. contradiction Hne. reflexivity.
      * do 4 eexists. split; [reflexivity|]. cbn.
        split; [left; reflexivity|]. repeat split; auto.
    + do 4 eexists. split; [reflexivity|]. cbn.
      split; [left; reflexivity|]. repeat split; auto.
  - destruct e; do 4 eexists; (split; [reflexivity|]); cbn.
    + split. { right. exists TypeError. repeat split; [discriminate|]. right. reflexivity. }
      repeat split; auto; intros Hne; contradiction Hne; reflexivity.
    + split. { right. exists ValueError. repeat split; [discriminate|]. right. reflexivity. }
      repeat split; auto.
    + split; [left; reflexivity|]. repeat split; auto.
Qed.

Lemma calls_fired (t : list action) (b : bool) :
  List.filter is_call t = (if b then [CallSendKey KEY_SPACE] else []) ->
  fired t = b.
Proof. intros H. rewrite fired_calls, H. destruct b; reflexivity. Qed.

(** A step of the running program: it goes on, or it halts on a
    [TypeError] of an iteration that has called [send_key], or on an
    exception of the sensor read that is no [OSError]. *)
Lemma step_spec (s : state) (x : stimulus) :
  halted s = None ->
  exists s' t,
    step s x = (s', t) /\
    (halted s' = None \/
     last_press_time s' = last_press_time s /\
     exists e, halted s' = Some e /\ e <> OSError /\
       (e = TypeError /\ fired t = true \/
        exists p, x = Poll p /\ touch_read p = Raise e)) /\
    BLEKeyboard._payload (kb s') = BLEKeyboard._payload (kb s) /\
    BLEKeyboard._h_rep (kb s') = BLEKeyboard._h_rep (kb s) /\
    gatts (env s') = gatts (env s) /\
    List.filter is_call t
      = (if expected_fire (last_press_time s) x
         then [CallSendKey KEY_SPACE] else []) /\
    fired t = expected_fire (last_press_time s) x /\
    (halted s' = None ->
     last_press_time s' =
       (if accepted t
        then match x with
             | Poll p => ticks_ms (clock p)
             | Irq _ _ => last_press_time s
             end
        else last_press_time s)) /\
    (radio_reliable (env s) ->
     radio_reliable (env s') /\
     (halted s' = None -> accepted t = expected_fire (last_press_time s) x)).
Proof.
  intros Hh. unfold step. rewrite Hh. destruct x as [event data | p].
  - rewrite _irq_spec. do 2 eexists. split; [reflexivity|]. cbn.
    destruct (irq_trace_facts (kb s) event) as (Hf & _).
    unfold accepted. rewrite (calls_fired _ false Hf). cbn.
    repeat split; auto.
  - destruct (loop_body_spec (last_press_time s) p (kb s) (env s))
      as (r & self' & w' & t & E & Hr & Hf & Hg & Hp & Hhr & Hrel).
    rewrite E. pose proof (calls_fired t _ Hf) as Hfired.
    destruct Hr as [-> | (e & -> & Hne & He)].
    + do 2 eexists. split; [reflexivity|]. cbn.
      split. { left. reflexivity. }
      repeat split; auto.
      * apply Hrel; assumption.
      * intros _. apply Hrel; [assumption|discriminate].
    + do 2 eexists. split; [reflexivity|]. cbn.
      split.
      { right. split; [reflexivity|]. exists e. repeat split; [exact Hne|].
        destruct He as [[-> He] | He].
        - left. rewrite Hfired, He. split; reflexivity.
        - right. exists p. split; [reflexivity|exact He]. }
      repeat split; auto; try discriminate.
      apply Hrel; assumption.
Qed.

(** ** The tick counter *)

Lemma ticks_diff_of_clocks (a b : Z) :
  ticks_diff (ticks_ms b) (ticks_ms a)
  = (b - a + TICKS_PERIOD / 2) mod TICKS_PERIOD - TICKS_PERIOD / 2.
Proof.
  unfold ticks_diff, ticks_ms. f_equal.
  rewrite <- (Zplus_mod_idemp_l (b mod TICKS_PERIOD - a mod TICKS_PERIOD)).
  rewrite <- Zminus_mod.
  rewrite Zplus_mod_idemp_l. reflexivity.
Qed.

(** The counter never shows more than the time that has passed. *)
Lemma ticks_diff_le_elapsed (a b : Z) :
  a <= b -> ticks_diff (ticks_ms b) (ticks_ms a) <= b - a.
Proof.
  intros Hab. rewrite ticks_diff_of_clocks.
  assert (HP : TICKS_PERIOD / 2 = 536870912) by reflexivity.
  assert (HP' : TICKS_PERIOD = 1073741824) by reflexivity.
  pose proof (Z.mod_le (b - a + TICKS_PERIOD / 2) TICKS_PERIOD) as H.
  rewrite HP, HP' in *. lia.
Qed.

(** It shows the time that has passed while this is less than half a period. *)
Lemma ticks_diff_small (a b : Z) :
  0 <= b - a < TICKS_PERIOD / 2 ->
  ticks_diff (ticks_ms b) (ticks_ms a) = b - a.
Proof.
  intros Hab. rewrite ticks_diff_of_clocks.
  assert (HP : TICKS_PERIOD / 2 = 536870912) by reflexivity.
  assert (HP' : TICKS_PERIOD = 1073741824) by reflexivity.
  rewrite HP, HP' in *. rewrite Z.mod_small by lia. lia.
Qed.

(** ** Runs *)

Lemma run_cons (s : state) (x : stimulus) (xs : list stimulus) :
  run s (x :: xs)
  = (fst (run (fst (step s x)) xs),
     snd (step s x) :: snd (run (fst (step s x)) xs)).
Proof.
  cbn [run]. destruct (step s x) as [s1 t]. cbn [fst snd].
  destruct (run s1 xs) as [s2 ts]. reflexivity.
Qed.

Lemma step_halted (s : state) (x : stimulus) (e : exn) :
  halted s = Some e -> step s x = (s, []).
Proof. intros H. unfold step. rewrite H. reflexivity. Qed.

(** A halted program does nothing. *)
Lemma run_halted (xs : list stimulus) (s : state) (e : exn) :
  halted s = Some e ->
  fst (run s xs) = s /\ Forall (fun t => t = []) (snd (run s xs)).
Proof.
  intros H. induction xs as [|x xs [IH1 IH2]]; [split; [reflexivity|constructor]|].
  rewrite run_cons. rewrite (step_halted s x e H). cbn.
  split; [exact IH1|]. constructor; [reflexivity|exact IH2].
Qed.

(** A program that runs at the end of a run was running at its start. *)
Lemma run_running (xs : list stimulus) (s : state) :
  halted (fst (run s xs)) = None -> halted s = None.
Proof.
  intros H. destruct (halted s) as [e|] eqn:Hh; [|reflexivity].
  destruct (run_halted xs s e Hh) as [Hs _]. rewrite Hs, Hh in H. exact H.
Qed.

(** The payload built at startup, the handle of the Input Report and the
    characteristic values stay as they are. *)
Lemma run_invariant (xs : list stimulus) (s : state) :
  BLEKeyboard._payload (kb (fst (run s xs))) = BLEKeyboard._payload (kb s) /\
  BLEKeyboard._h_rep (kb (fst (run s xs))) = BLEKeyboard._h_rep (kb s) /\
  gatts (env (fst (run s xs))) = gatts (env s).
Proof.
  revert s. induction xs as [|x xs IH]; intros s; [auto|].
  rewrite run_cons. cbn [fst].
  destruct (halted s) as [e|] eqn:Hh.
  - rewrite (step_halted s x e Hh). cbn [fst]. apply IH.
  - destruct (step_spec s x Hh) as (s1 & t & E & _ & Hp1 & Hr1 & Hg1 & _).
    rewrite E. cbn [fst].
    destruct (IH s1) as (Hp2 & Hr2 & Hg2).
    rewrite Hp2, Hr2, Hg2. auto.
Qed.

Lemma state_before_S (s : state) (x : stimulus) (xs : list stimulus) (j : nat) :
  state_before s (x :: xs) (S j) = state_before (fst (step s x)) xs j.
Proof. unfold state_before. cbn [firstn]. rewrite run_cons. reflexivity. Qed.

Lemma output_at (xs : list stimulus) (s : state) (j : nat) (x : stimulus)
    (t : list action) :
  nth_error xs j = Some x ->
  nth_error (snd (run s xs)) j = Some t ->
  t = snd (step (state_before s xs j) x).
Proof.
  revert s j. induction xs as [|y xs IH]; intros s j Hx Ht.
  - destruct j; discriminate Hx.
  - rewrite run_cons in Ht. destruct j as [|j].
    + cbn in Hx, Ht. injection Hx as ->. injection Ht as <-. reflexivity.
    + cbn in Hx, Ht. rewrite state_before_S. eapply IH; eassumption.
Qed.

Lemma state_before_running (xs : list stimulus) (s : state) (j : nat) :
  halted (state_before s xs j) = None -> halted s = None.
Proof. unfold state_before. apply run_running. Qed.

(** [last_press_time] changes at accepted events only. *)
Lemma last_press_time_kept (xs : list stimulus) (s : state) (n : nat) :
  halted (state_before s xs n) = None ->
  (forall k tk, (k < n)%nat -> nth_error (snd (run s xs)) k = Some tk ->
                accepted tk = false) ->
  last_press_time (state_before s xs n) = last_press_time s.
Proof.
  revert s n. induction xs as [|x xs IH]; intros s n Hrun Hno.
  - unfold state_before. destruct n; reflexivity.
  - destruct n as [|n]; [reflexivity|].
    pose proof (state_before_running _ _ _ Hrun) as Hh.
    rewrite state_before_S in Hrun |- *.
    pose proof (state_before_running _ _ _ Hrun) as Hh1.
    destruct (step_spec s x Hh) as (s1 & t & E & _ & _ & _ & _ & _ & _ & Hl & _).
    rewrite E in Hrun, Hh1 |- *. cbn [fst] in Hrun, Hh1 |- *.
    assert (Ht : accepted t = false).
    { apply (Hno 0%nat); [lia|]. rewrite run_cons, E. reflexivity. }
    specialize (Hl Hh1). rewrite Ht in Hl. rewrite <- Hl.
    apply IH; [exact Hrun|].
    intros k tk Hk Hnth. apply (Hno (S k)); [lia|].
    rewrite run_cons, E. exact Hnth.
Qed.

(** After an accepted event and until the next one, [last_press_time]
    is the tick count of that event. *)
Lemma last_press_time_after_accept (xs : list stimulus) (s : state)
    (i j : nat) (p : poll) (ti : list action) :
  halted (state_before s xs j) = None ->
  (i < j)%nat ->
  nth_error xs i = Some (Poll p) ->
  nth_error (snd (run s xs)) i = Some ti ->
  accepted ti = true ->
  (forall k tk, (i < k < j)%nat -> nth_error (snd (run s xs)) k = Some tk ->
                accepted tk = false) ->
  last_press_time (state_before s xs j) = ticks_ms (clock p).
Proof.
  revert s i j. induction xs as [|x xs IH]; intros s i j Hrun Hij Hx Ht Hacc Hno.
  - destruct i; discriminate Hx.
  - destruct j as [|j]; [lia|].
    pose proof (state_before_running _ _ _ Hrun) as Hh.
    rewrite state_before_S in Hrun |- *.
    pose proof (state_before_running _ _ _ Hrun) as Hh1.
    destruct (step_spec s x Hh) as (s1 & t & E & _ & _ & _ & _ & _ & _ & Hl & _).
    rewrite run_cons, E in Ht, Hno. cbn [fst snd] in Ht, Hno.
    rewrite E in Hrun, Hh1 |- *. cbn [fst] in Hrun, Hh1 |- *.
    specialize (Hl Hh1).
    destruct i as [|i].
    + cbn in Hx, Ht. injection Hx as ->. injection Ht as ->.
      rewrite Hacc in Hl. rewrite <- Hl.
      apply last_press_time_kept; [exact Hrun|].
      intros k tk Hk Hnth. apply (Hno (S k)); [lia|exact Hnth].
    + cbn in Hx, Ht. apply (IH s1 i j Hrun); try assumption; [lia|].
      intros k tk Hk Hnth. apply (Hno (S k)); [lia|exact Hnth].
Qed.

(** ** Debounce *)

Lemma fired_nil_false (t : list action) : t = [] -> fired t = false.
Proof. intros ->. reflexivity. Qed.

(** What a key event at stimulus [j] tells: it is a poll that fires from
    the state the run has reached, in which the program is running. *)
Lemma fired_at (s : state) (xs : list stimulus) (j : nat) (x : stimulus)
    (tj : list action) :
  nth_error xs j = Some x ->
  nth_error (snd (run s xs)) j = Some tj ->
  fired tj = true ->
  halted (state_before s xs j) = None /\
  exists pj, x = Poll pj /\
             fires (last_press_time (state_before s xs j)) pj = true.
Proof.
  intros Hx Ht Hf.
  pose proof (output_at xs s j x tj Hx Ht) as Htj.
  destruct (halted (state_before s xs j)) as [e|] eqn:Hh.
  - rewrite (step_halted _ x e Hh) in Htj. cbn in Htj.
    rewrite (fired_nil_false tj Htj) in Hf. discriminate Hf.
  - split; [reflexivity|].
    destruct (step_spec (state_before s xs j) x Hh)
      as (s1 & t & E & _ & _ & _ & _ & _ & Hfired & _).
    rewrite E in Htj. cbn [snd] in Htj. subst t.
    rewrite Hf in Hfired. destruct x as [event data | pj]; [discriminate Hfired|].
    exists pj. split; [reflexivity|]. symmetry. exact Hfired.
Qed.

(** C2: in every run, a key event occurs only at a poll whose reading is
    strictly below the threshold, and, by the tick counter, more than
    DEBOUNCE_MS after the previously accepted event; when the clock did not
    run backwards between the two, more than DEBOUNCE_MS milliseconds lie
    between them. *)
Theorem key_event_debounced (s : state) (xs : list stimulus) (j : nat)
    (x : stimulus) (tj : list action) :
  nth_error xs j = Some x ->
  nth_error (snd (run s xs)) j = Some tj ->
  fired tj = true ->
  exists pj v,
    x = Poll pj /\ touch_read pj = Ok v /\ v < TOUCH_THRESHOLD /\
    forall i pi ti,
      (i < j)%nat ->
      nth_error xs i = Some (Poll pi) ->
      nth_error (snd (run s xs)) i = Some ti ->
      accepted ti = true ->
      (forall k tk, (i < k < j)%nat ->
                    nth_error (snd (run s xs)) k = Some tk ->
                    accepted tk = false) ->
      ticks_diff (ticks_ms (clock pj)) (ticks_ms (clock pi)) > DEBOUNCE_MS /\
      (clock pi <= clock pj -> clock pj - clock pi > DEBOUNCE_MS).
Proof.
  intros Hx Ht Hf.
  destruct (fired_at s xs j x tj Hx Ht Hf) as (Hh & pj & -> & Hfires).
  unfold fires, touching in Hfires.
  apply andb_prop in Hfires. destruct Hfires as [Htouch Hdiff].
  destruct (touch_read pj) as [v|] eqn:Hv; [|discriminate Htouch].
  exists pj, v. split; [reflexivity|]. split; [exact Hv|].
  split; [lia|].
  intros i pi ti Hij Hxi Hti Hacc Hno.
  rewrite (last_press_time_after_accept xs s i j pi ti Hh Hij Hxi Hti Hacc Hno)
    in Hdiff.
  assert (Hgt : ticks_diff (ticks_ms (clock pj)) (ticks_ms (clock pi)) > DEBOUNCE_MS)
    by lia.
  split; [exact Hgt|].
  intros Hmono. pose proof (ticks_diff_le_elapsed (clock pi) (clock pj) Hmono). lia.
Qed.

Lemma key_event_debounced_witness :
  exists pj v,
    Poll (mkPoll (Ok 700) 1400) = Poll pj /\
    touch_read pj = Ok v /\ v < TOUCH_THRESHOLD /\
    forall i pi ti,
      (i < 1)%nat ->
      nth_error two_touches i = Some (Poll pi) ->
      nth_error (snd (run booted two_touches)) i = Some ti ->
      accepted ti = true ->
      (forall k tk, (i < k < 1)%nat ->
                    nth_error (snd (run booted two_touches)) k = Some tk ->
                    accepted tk = false) ->
      ticks_diff (ticks_ms (clock pj)) (ticks_ms (clock pi)) > DEBOUNCE_MS /\
      (clock pi <= clock pj -> clock pj - clock pi > DEBOUNCE_MS).
Proof.
  apply (key_event_debounced booted two_touches 1
           (Poll (mkPoll (Ok 700) 1400))
           [Print (MsgTouch 700); LedValue 1; CallSendKey KEY_SPACE;
            LedValue 0; SleepMs 20]).
  - reflexivity.
  - vm_compute. reflexivity.
  - reflexivity.
Defined.

(** ** Runs without key events *)

Lemma send_key_calls_cons (t : list action) (ts : list (list action)) :
  send_key_calls (t :: ts)
  = (List.length (List.filter is_call t) + send_key_calls ts)%nat.
Proof.
  unfold send_key_calls. cbn [List.concat].
  rewrite List.filter_app, List.length_app. reflexivity.
Qed.

(** While no stimulus can fire from the current [last_press_time], there is
    no key event and [last_press_time] stays; a running program keeps
    running unless a sensor read raises an exception that is no
    [OSError]. *)
Lemma run_quiet (xs : list stimulus) (s : state) :
  Forall (quiet (last_press_time s)) xs ->
  key_events (snd (run s xs)) = repeat false (List.length xs) /\
  send_key_calls (snd (run s xs)) = 0%nat /\
  last_press_time (fst (run s xs)) = last_press_time s /\
  (Forall reads_ok xs -> halted (fst (run s xs)) = halted s).
Proof.
  revert s. induction xs as [|x xs IH]; intros s Hq; [repeat split|].
  apply Forall_cons in Hq. destruct Hq as [Hx Hxs].
  rewrite run_cons. cbn [fst snd key_events map List.length repeat].
  rewrite send_key_calls_cons.
  destruct (halted s) as [e|] eqn:Hh.
  - rewrite (step_halted s x e Hh). cbn [fst snd].
    destruct (IH s Hxs) as (Hk & Hc & Hl & Hh2).
    fold (key_events (snd (run s xs))). rewrite Hk, Hc.
    repeat split; try assumption.
    intros Hr. apply Forall_cons in Hr. rewrite Hh2, Hh by apply Hr. reflexivity.
  - destruct (step_spec s x Hh)
      as (s1 & t & E & Hh1 & _ & _ & _ & Hcalls & Hf & Hl & _).
    rewrite E. cbn [fst snd].
    unfold quiet in Hx. rewrite Hx in Hcalls, Hf.
    assert (Hl1 : last_press_time s1 = last_press_time s).
    { destruct Hh1 as [Hh1 | [Hl1 _]]; [|exact Hl1].
      rewrite (Hl Hh1). unfold accepted. rewrite Hf. reflexivity. }
    rewrite <- Hl1 in Hxs. destruct (IH s1 Hxs) as (Hk & Hc & Hl2 & Hh2).
    fold (key_events (snd (run s1 xs))).
    rewrite Hk, Hc, Hcalls, Hf, Hl2, Hl1.
    split; [reflexivity|]. split; [reflexivity|]. split; [reflexivity|].
    intros Hr. apply Forall_cons in Hr. destruct Hr as [Hrx Hrxs].
    rewrite (Hh2 Hrxs).
    destruct Hh1 as [Hh1 | (_ & e & _ & Hne & [[_ Hf1] | (p & -> & Hp)])].
    + exact Hh1.
    + rewrite Hf in Hf1. discriminate Hf1.
    + cbn in Hrx. unfold sensor_ok in Hrx. rewrite Hp in Hrx. contradiction.
Qed.

(** A poll taken at most DEBOUNCE_MS after the tick epoch cannot fire while
    [last_press_time] is still 0. *)
Lemma early_quiet (x : stimulus) : early x -> quiet 0 x.
Proof.
  destruct x as [event data | p]; [reflexivity|].
  unfold early, quiet, expected_fire, fires. intros Hc.
  replace 0 with (ticks_ms 0) at 1 by reflexivity.
  rewrite ticks_diff_small.
  - destruct (touching p); cbn; [|reflexivity]. unfold DEBOUNCE_MS in *. lia.
  - change (TICKS_PERIOD / 2) with 536870912. unfold DEBOUNCE_MS in Hc. lia.
Qed.

(** ** Startup *)

(** Startup succeeds: the program enters its loop disconnected, with
    [last_press_time = 0] and the payload built from the default name, which
    it has advertised. *)
Lemma main_init_spec (w : world) :
  halted (fst (main_init w)) = None /\
  last_press_time (fst (main_init w)) = 0 /\
  BLEKeyboard._conn_handle (kb (fst (main_init w))) = None /\
  BLEKeyboard._payload (kb (fst (main_init w)))
  = advertising_payload false false (Some BLEKeyboard.default_name)
      _ADV_APPEARANCE_KEYBOARD /\
  In (GapAdvertise 500000
        (advertising_payload false false (Some BLEKeyboard.default_name)
           _ADV_APPEARANCE_KEYBOARD))
     (snd (main_init w)).
Proof.
  destruct (init_returns BLEKeyboard.default_name
              (mkWorld (gatts w) 0 (stack_handles w) (radio_script w)))
    as (self & w' & t & E & Hpay & Hconn & _ & _ & _ & _ & _ & Hin).
  set (p0 := advertising_payload false false (Some BLEKeyboard.default_name)
               _ADV_APPEARANCE_KEYBOARD) in *.
  clearbody p0.
  unfold main_init, bind, led_value, print, emit, ret. cbn -[BLEKeyboard.__init__].
  rewrite E. cbn. rewrite <- Hpay.
  repeat split; try assumption; try reflexivity.
  right. apply in_or_app. left. exact Hin.
Qed.

(** What startup leaves: LED off, the radio script untouched, the handles
    of the stack stored in the keyboard object. *)
Lemma main_init_env (w : world) :
  led (env (fst (main_init w))) = 0 /\
  radio_script (env (fst (main_init w))) = radio_script w /\
  (BLEKeyboard._h_info (kb (fst (main_init w))),
   BLEKeyboard._h_rep_map (kb (fst (main_init w))),
   BLEKeyboard._h_rep (kb (fst (main_init w))),
   BLEKeyboard._h_proto (kb (fst (main_init w))),
   BLEKeyboard._h_ctrl (kb (fst (main_init w)))) = stack_handles w.
Proof.
  destruct (init_returns BLEKeyboard.default_name
              (mkWorld (gatts w) 0 (stack_handles w) (radio_script w)))
    as (self & w' & t & E & _ & _ & Hhs & _ & Hled & Hscript & _).
  unfold main_init, bind, led_value, print, emit, ret. cbn -[BLEKeyboard.__init__].
  rewrite E. cbn. auto.
Qed.

(** C10: [last_press_time] starts at 0, the tick epoch, so from startup on,
    as long as the polls are taken at most DEBOUNCE_MS (300 ms) after the
    tick epoch, no touch produces a key event, although no event was ever
    accepted. *)
Theorem first_touch_suppressed (w : world) (xs : list stimulus) :
  Forall early xs ->
  last_press_time (fst (main_init w)) = 0 /\
  key_events (snd (run (fst (main_init w)) xs))
    = repeat false (List.length xs) /\
  send_key_calls (snd (run (fst (main_init w)) xs)) = 0%nat.
Proof.
  intros Hearly.
  destruct (main_init_spec w) as (_ & H0 & _).
  split; [exact H0|].
  destruct (run_quiet xs (fst (main_init w))) as (Hk & Hc & _).
  - rewrite H0. eapply Forall_impl; [exact Hearly|]. exact early_quiet.
  - split; assumption.
Qed.

Lemma first_touch_suppressed_witness :
  last_press_time (fst (main_init ble0)) = 0 /\
  key_events (snd (run (fst (main_init ble0)) [Poll (mkPoll (Ok 700) 100)]))
    = repeat false 1 /\
  send_key_calls (snd (run (fst (main_init ble0))
                         [Poll (mkPoll (Ok 700) 100)])) = 0%nat.
Proof.
  apply (first_touch_suppressed ble0 [Poll (mkPoll (Ok 700) 100)]).
  apply Forall_cons. split; [|apply Forall_nil_2].
  cbn. unfold DEBOUNCE_MS. lia.
Defined.

Lemma run_app (xs ys : list stimulus) (s : state) :
  run s (xs ++ ys)
  = (fst (run (fst (run s xs)) ys),
     snd (run s xs) ++ snd (run (fst (run s xs)) ys)).
Proof.
  revert s. induction xs as [|x xs IH]; intros s.
  - cbn. destruct (run s ys); reflexivity.
  - rewrite <- List.app_comm_cons, !run_cons, IH. reflexivity.
Qed.

Lemma key_events_app (ts1 ts2 : list (list action)) :
  key_events (ts1 ++ ts2) = key_events ts1 ++ key_events ts2.
Proof. apply List.map_app. Qed.

Lemma send_key_calls_app (ts1 ts2 : list (list action)) :
  send_key_calls (ts1 ++ ts2) = (send_key_calls ts1 + send_key_calls ts2)%nat.
Proof.
  induction ts1 as [|t ts1 IH]; [reflexivity|].
  rewrite <- List.app_comm_cons, !send_key_calls_cons, IH. lia.
Qed.

Lemma not_touching_quiet (last : Z) (p : poll) :
  touching p = false -> quiet last (Poll p).
Proof. intros H. unfold quiet, expected_fire, fires. rewrite H. reflexivity. Qed.

(** ** The scenario 900, 900, 750, 900 *)

Lemma scenario_from (s : state) (t0 : Z) :
  halted s = None ->
  last_press_time s = 0 ->
  ticks_diff (ticks_ms (t0 + 40)) 0 > DEBOUNCE_MS ->
  key_events (snd (run s (scenario t0))) = [false; false; true; false] /\
  send_key_calls (snd (run s (scenario t0))) = 1%nat.
Proof.
  intros Hh H0 Hdiff.
  change (scenario t0) with
    ([Poll (mkPoll (Ok 900) t0); Poll (mkPoll (Ok 900) (t0 + 20))]
     ++ Poll (mkPoll (Ok 750) (t0 + 40))
     :: [Poll (mkPoll (Ok 900) (t0 + 60))]).
  rewrite run_app. cbn [snd].
  set (xs1 := [Poll (mkPoll (Ok 900) t0); Poll (mkPoll (Ok 900) (t0 + 20))]).
  destruct (run_quiet xs1 s) as (Hk1 & Hc1 & Hl1 & Hh1).
  { repeat constructor; apply not_touching_quiet; reflexivity. }
  rewrite Hh in Hh1. specialize (Hh1 ltac:(repeat constructor)).
  set (s2 := fst (run s xs1)) in *.
  rewrite run_cons. cbn [snd fst].
  destruct (step_spec s2 (Poll (mkPoll (Ok 750) (t0 + 40))) Hh1)
    as (s3 & t3 & E & _ & _ & _ & _ & Hcalls & Hf & _).
  rewrite E. cbn [fst snd].
  assert (Hfire : expected_fire (last_press_time s2)
                    (Poll (mkPoll (Ok 750) (t0 + 40))) = true).
  { rewrite Hl1, H0. unfold expected_fire, fires. cbn [clock touching touch_read mkPoll].
    apply andb_true_intro. split; [reflexivity|]. lia. }
  rewrite Hfire in Hcalls, Hf.
  destruct (run_quiet [Poll (mkPoll (Ok 900) (t0 + 60))] s3) as (Hk4 & Hc4 & _).
  { repeat constructor; apply not_touching_quiet; reflexivity. }
  rewrite key_events_app, send_key_calls_app, Hk1, Hc1.
  rewrite send_key_calls_cons, Hc4, Hcalls.
  cbn [key_events map] in Hk4 |- *. rewrite Hf.
  split; [|reflexivity].
  cbn. f_equal. f_equal. f_equal. exact Hk4.
Qed.

(** C6 (as amended): with threshold 800, debounce window 300 ms and readings
    900, 900, 750, 900 taken 20 ms apart from startup, exactly one
    [send_key] call is made, on the third reading, provided the tick counter
    then shows more than 300 ms since its epoch. *)
Theorem scenario_single_key_event (w : world) (t0 : Z) :
  ticks_diff (ticks_ms (t0 + 40)) 0 > DEBOUNCE_MS ->
  key_events (snd (run (fst (main_init w)) (scenario t0)))
    = [false; false; true; false] /\
  send_key_calls (snd (run (fst (main_init w)) (scenario t0))) = 1%nat.
Proof.
  intros Hdiff.
  destruct (main_init_spec w) as (Hh & H0 & _).
  apply scenario_from; assumption.
Qed.

Lemma scenario_single_key_event_witness :
  key_events (snd (run (fst (main_init ble0)) (scenario 5000)))
    = [false; false; true; false] /\
  send_key_calls (snd (run (fst (main_init ble0)) (scenario 5000))) = 1%nat.
Proof.
  apply (scenario_single_key_event ble0 5000). vm_compute. reflexivity.
Defined.

(** C6 (as stated) fails: when the four readings are taken from the tick
    epoch on (at 0, 20, 40 and 60 ms), [send_key] is never called. *)
Lemma scenario_at_epoch_no_key_event :
  key_events (snd (run (fst (main_init ble0)) (scenario 0)))
    = [false; false; false; false] /\
  send_key_calls (snd (run (fst (main_init ble0)) (scenario 0))) = 0%nat.
Proof. vm_compute. split; reflexivity. Qed.

(** ** Sustained touches *)

Lemma held_within_window_quiet (p q : poll) :
  held_within_window p q -> quiet (ticks_ms (clock p)) (Poll q).
Proof.
  intros [_ Hc]. unfold quiet, expected_fire, fires.
  rewrite ticks_diff_small.
  - destruct (touching q); cbn; [|reflexivity]. lia.
  - change (TICKS_PERIOD / 2) with 536870912. unfold DEBOUNCE_MS in Hc. lia.
Qed.

Lemma halted_run_silent (xs : list stimulus) (s : state) (e : exn) :
  halted s = Some e ->
  key_events (snd (run s xs)) = repeat false (List.length xs) /\
  send_key_calls (snd (run s xs)) = 0%nat.
Proof.
  intros Hh. induction xs as [|x xs [Hk Hc]]; [split; reflexivity|].
  rewrite run_cons, (step_halted s x e Hh). cbn [fst snd].
  rewrite send_key_calls_cons. cbn [key_events map List.length repeat].
  fold (key_events (snd (run s xs))). rewrite Hk, Hc. split; reflexivity.
Qed.

(** C3 (as amended): a sustained touch whose entry poll comes, by the tick
    counter, more than DEBOUNCE_MS after the last accepted event, and whose
    later polls are all taken at most DEBOUNCE_MS after the entry, produces
    exactly one key event, at the entry of the run, when the radio accepts
    the notifications. *)
Theorem sustained_touch_single_event (s : state) (p : poll) (ps : list poll) :
  halted s = None ->
  radio_reliable (env s) ->
  touching p = true ->
  ticks_diff (ticks_ms (clock p)) (last_press_time s) > DEBOUNCE_MS ->
  Forall (held_within_window p) ps ->
  key_events (snd (run s (map Poll (p :: ps))))
    = true :: repeat false (List.length ps) /\
  send_key_calls (snd (run s (map Poll (p :: ps)))) = 1%nat.
Proof.
  intros Hh Hrel Htouch Hdiff Hps.
  cbn [map]. rewrite run_cons. cbn [snd].
  destruct (step_spec s (Poll p) Hh)
    as (s1 & t & E & Hh1 & _ & _ & _ & Hcalls & Hf & Hl & Hacc).
  rewrite E. cbn [fst snd].
  assert (Hfire : expected_fire (last_press_time s) (Poll p) = true).
  { unfold expected_fire, fires. rewrite Htouch. cbn [andb]. lia. }
  rewrite Hfire in Hcalls, Hf.
  rewrite send_key_calls_cons, Hcalls.
  cbn [key_events map]. rewrite Hf.
  fold (key_events (snd (run s1 (map Poll ps)))).
  destruct Hh1 as [Hh1 | (_ & e & Hh1 & _)].
  - destruct (Hacc Hrel) as [_ Ha]. specialize (Ha Hh1). specialize (Hl Hh1).
    rewrite Hfire in Ha. rewrite Ha in Hl.
    destruct (run_quiet (map Poll ps) s1) as (Hk & Hc & _).
    { rewrite Hl. apply Forall_map.
      eapply Forall_impl; [exact Hps|]. intros q Hq.
      apply held_within_window_quiet. exact Hq. }
    rewrite Hk, Hc, List.length_map. split; reflexivity.
  - destruct (halted_run_silent (map Poll ps) s1 _ Hh1) as [Hk Hc].
    rewrite Hk, Hc, List.length_map. split; reflexivity.
Qed.

Lemma sustained_touch_single_event_witness :
  key_events (snd (run booted
     (map Poll [mkPoll (Ok 700) 1000; mkPoll (Ok 700) 1020;
                mkPoll (Ok 700) 1300])))
    = true :: repeat false 2 /\
  send_key_calls (snd (run booted
     (map Poll [mkPoll (Ok 700) 1000; mkPoll (Ok 700) 1020;
                mkPoll (Ok 700) 1300]))) = 1%nat.
Proof.
  apply (sustained_touch_single_event booted (mkPoll (Ok 700) 1000)
           [mkPoll (Ok 700) 1020; mkPoll (Ok 700) 1300]).
  - reflexivity.
  - reflexivity.
  - reflexivity.
  - vm_compute. reflexivity.
  - repeat (apply Forall_cons; split;
            [split; [reflexivity | cbn; unfold DEBOUNCE_MS; lia]|]).
    apply Forall_nil_2.
Defined.

(** C3 (as stated) fails: a finger held for 320 ms, read every 20 ms, gives
    a key event at the entry and a second one 320 ms later. *)
Lemma held_touch_repeats :
  Forall (fun x => exists p, x = Poll p /\ touching p = true) held_touch /\
  key_events (snd (run booted held_touch))
    = [true] ++ repeat false 15 ++ [true] /\
  send_key_calls (snd (run booted held_touch)) = 2%nat.
Proof.
  split.
  - unfold held_touch. apply Forall_map. apply Forall_forall.
    intros k _. eexists. split; reflexivity.
  - vm_compute. split; reflexivity.
Qed.

(** ** Disconnection *)

(** C7: in every state the program reaches, a disconnect event clears the
    stored handle to [None] and at once advertises again, with the payload
    that was built (and advertised) at startup. *)
Theorem disconnect_readvertises (w : world) (xs : list stimulus)
    (data : Z * Z * list byte) :
  let p0 := advertising_payload false false (Some BLEKeyboard.default_name)
              _ADV_APPEARANCE_KEYBOARD in
  let s := fst (run (fst (main_init w)) xs) in
  In (GapAdvertise 500000 p0) (snd (main_init w)) /\
  BLEKeyboard._payload (kb s) = p0 /\
  exists self',
    BLEKeyboard._irq _IRQ_CENTRAL_DISCONNECT data (kb s, env s)
    = (Ok tt, (self', env s),
       [Print MsgDisconnected; GapAdvertise 500000 p0]) /\
    BLEKeyboard._conn_handle self' = None /\
    BLEKeyboard._payload self' = p0 /\
    (halted s = None ->
     step s (Irq _IRQ_CENTRAL_DISCONNECT data)
     = (mkState self' (last_press_time s) (env s) None,
        [Print MsgDisconnected; GapAdvertise 500000 p0])).
Proof.
  cbn zeta.
  destruct (main_init_spec w) as (_ & _ & _ & Hpay & Hin).
  destruct (run_invariant xs (fst (main_init w))) as (Hpay1 & _).
  rewrite Hpay in Hpay1.
  split; [exact Hin|]. split; [exact Hpay1|].
  exists (BLEKeyboard.set_conn_handle (kb (fst (run (fst (main_init w)) xs))) None).
  rewrite _irq_spec.
  destruct data as [[h a] b].
  split; [|split; [reflexivity|split; [exact Hpay1|]]].
  - unfold irq_trace. cbn -[advertising_payload]. rewrite Hpay1. reflexivity.
  - intros Hh. unfold step. rewrite Hh, _irq_spec.
    unfold irq_trace. cbn -[advertising_payload]. rewrite Hpay1. reflexivity.
Qed.

(** * Further properties of the code *)

(** ** [send_key]: frames and failures *)

Lemma send_key_notifies_witness :
  exists w',
    BLEKeyboard.send_key KEY_SPACE [] []
      (BLEKeyboard.mk 16 18 20 23 25 (Some 3) [], ble0)
    = (Ok tt, (BLEKeyboard.mk 16 18 20 23 25 (Some 3) [], w'),
       [CallSendKey KEY_SPACE;
        GattsNotify 3 20 (key_down_frame KEY_SPACE);
        SleepMs KEY_HOLD_TIME_MS;
        GattsNotify 3 20 key_up_frame]) /\
    gatts w' = gatts ble0 /\ led w' = led ble0 /\ radio_reliable w'.
Proof.
  apply (send_key_notifies (BLEKeyboard.mk 16 18 20 23 25 (Some 3) [])
           KEY_SPACE 3 ble0).
  - reflexivity.
  - lia.
  - unfold KEY_SPACE. lia.
  - reflexivity.
Defined.

Lemma byte_of_Z_mod (v : Z) : byte_of_Z (v mod 256) = byte_of_Z v.
Proof. unfold byte_of_Z. rewrite Zmod_mod. reflexivity. Qed.

(** X2: [send_key] does not check the key code: the third byte of the
    key-down frame holds its low 8 bits, so that a key code outside 0..255
    is sent as the key code modulo 256 (300 types the space key 0x2C). *)
Theorem send_key_truncates_key_code (self : BLEKeyboard.t) (key_code c : Z)
    (w : world) :
  BLEKeyboard._conn_handle self = Some c -> c <> 0 ->
  radio_reliable w ->
  exists w',
    BLEKeyboard.send_key key_code [] [] (self, w)
    = (Ok tt, (self, w'),
       [CallSendKey key_code;
        GattsNotify c (BLEKeyboard._h_rep self)
          (key_down_frame (key_code mod 256));
        SleepMs KEY_HOLD_TIME_MS;
        GattsNotify c (BLEKeyboard._h_rep self) key_up_frame]) /\
    nth_error (key_down_frame (key_code mod 256)) 2
    = Some (byte_of_Z (key_code mod 256)) /\
    Z_of_byte (byte_of_Z (key_code mod 256)) = key_code mod 256.
Proof.
  intros Hc Hnz Hr.
  destruct (send_key_frames self key_code c w Hc Hnz Hr) as (w' & E & _).
  exists w'. split; [|split; [reflexivity|]].
  - rewrite E. unfold key_down_frame. rewrite byte_of_Z_mod. reflexivity.
  - apply Z_of_byte_of_Z. pose proof (Z.mod_pos_bound key_code 256). lia.
Qed.

Lemma send_key_truncates_key_code_witness :
  exists w',
    BLEKeyboard.send_key 300 [] []
      (BLEKeyboard.mk 16 18 20 23 25 (Some 3) [], ble0)
    = (Ok tt, (BLEKeyboard.mk 16 18 20 23 25 (Some 3) [], w'),
       [CallSendKey 300;
        GattsNotify 3 20 (key_down_frame (300 mod 256));
        SleepMs KEY_HOLD_TIME_MS;
        GattsNotify 3 20 key_up_frame]) /\
    nth_error (key_down_frame (300 mod 256)) 2
    = Some (byte_of_Z (300 mod 256)) /\
    Z_of_byte (byte_of_Z (300 mod 256)) = 300 mod 256.
Proof.
  apply (send_key_truncates_key_code
           (BLEKeyboard.mk 16 18 20 23 25 (Some 3) []) 300 3 ble0).
  - reflexivity.
  - lia.
  - reflexivity.
Defined.

(** X3: when the radio accepts the key-down notification and rejects the
    key-up one, [send_key] raises [OSError] after the key-down frame and the
    hold time: the host has seen the key pressed and is never told of its
    release. *)
Theorem send_key_key_up_lost (self : BLEKeyboard.t) (key_code c : Z)
    (w : world) (rest : list bool) :
  BLEKeyboard._conn_handle self = Some c -> c <> 0 ->
  0 <= key_code <= 255 ->
  radio_script w = true :: false :: rest ->
  BLEKeyboard.send_key key_code [] [] (self, w)
  = (Raise OSError,
     (self, mkWorld (gatts w) (led w) (stack_handles w) rest),
     [CallSendKey key_code;
      GattsNotify c (BLEKeyboard._h_rep self) (key_down_frame key_code);
      SleepMs KEY_HOLD_TIME_MS]).
Proof.
  intros Hc Hnz Hk Hs. unfold_methods. cbn -[key_down_frame].
  rewrite Hc. assert (E : (c =? 0) = false) by lia. rewrite E.
  cbn -[key_down_frame]. rewrite Hc, Hs. cbn -[key_down_frame].
  rewrite Hc. reflexivity.
Qed.

Lemma send_key_key_up_lost_witness :
  BLEKeyboard.send_key KEY_SPACE [] []
    (BLEKeyboard.mk 16 18 20 23 25 (Some 3) [],
     mkWorld ∅ 0 (16, 18, 20, 23, 25) [true; false])
  = (Raise OSError,
     (BLEKeyboard.mk 16 18 20 23 25 (Some 3) [],
      mkWorld ∅ 0 (16, 18, 20, 23, 25) []),
     [CallSendKey KEY_SPACE;
      GattsNotify 3 20 (key_down_frame KEY_SPACE);
      SleepMs KEY_HOLD_TIME_MS]).
Proof.
  apply (send_key_key_up_lost (BLEKeyboard.mk 16 18 20 23 25 (Some 3) [])
           KEY_SPACE 3 (mkWorld ∅ 0 (16, 18, 20, 23, 25) [true; false]) []).
  - reflexivity.
  - lia.
  - unfold KEY_SPACE. lia.
  - reflexivity.
Defined.

(** ** [advertising_payload]: well-formedness and size *)

(** X4: the payload the builder returns has the layout of length-prefixed
    fields exactly when the name is empty or absent, or has at most 254
    bytes and as many characters as bytes: for any other name the length
    byte of the name field does not count the bytes that follow it. *)
Theorem payload_layout_iff (limited_disc br_edr : bool)
    (name : option string) (appearance : Z) :
  payload_layout limited_disc br_edr name appearance
    (advertising_payload limited_disc br_edr name appearance) <->
  (name_truthy name = true ->
   name_chars name = name_length name /\ name_length name <= 254).
Proof.
  split.
  - apply payload_layout_elim.
  - apply payload_layout_intro.
Qed.

(** X5: the size of the payload: 7 bytes for the flags and service-UUID
    fields, 2 bytes plus the name for a non-empty name, 4 bytes for a
    nonzero appearance. *)
Theorem advertising_payload_length (limited_disc br_edr : bool)
    (name : option string) (appearance : Z) :
  Z.of_nat (List.length
              (advertising_payload limited_disc br_edr name appearance))
  = 7 + (if name_truthy name then 2 + name_length name else 0)
      + (if appearance =? 0 then 0 else 4).
Proof.
  rewrite advertising_payload_bytes, !List.length_app. unfold name_length.
  destruct (name_truthy name); destruct (appearance =? 0); cbn [List.length]; lia.
Qed.

(** ** The actions of one iteration *)

(** Case analysis of an iteration without events in its middle: what the
    sensor read does, the threshold, the debounce test, the stored handle
    and what the radio answers. *)
Ltac loop_body_cases last p self w :=
  unfold loop_body, try_except_OSError;
  match goal with
  | Hg : irq_after_guard p = [], Hh : irq_in_hold p = [] |- _ =>
      rewrite Hg, Hh
  end;
  unfold_methods; unfold led_value;
  destruct self as [h_info h_map h_rep h_proto h_ctrl conn payload];
  destruct w as [g l hs script];
  destruct (touch_read p) as [v|[]] eqn:Hread;
    [destruct (v <? TOUCH_THRESHOLD) eqn:Hth;
     [destruct (ticks_diff (ticks_ms (clock p)) last >? DEBOUNCE_MS) eqn:Hdb;
      [destruct conn as [c|];
       [destruct (c =? 0) eqn:Hzero;
        [|destruct script as [|[] [|[] rest]]]|]|]|]| | |];
  cbn;
  try match goal with H : (_ =? 0) = _ |- _ => rewrite H end;
  cbn.

(** Such an iteration leaves the keyboard object as it is. *)
Lemma loop_body_calm (last : Z) (p : poll) (self : BLEKeyboard.t) (w : world) :
  calm_poll p ->
  exists r w' t, loop_body last p (self, w) = (r, (self, w'), t).
Proof.
  intros [Hg Hh].
  loop_body_cases last p self w; do 3 eexists; reflexivity.
Qed.

(** It returns when the sensor read returns or raises [OSError]. *)
Lemma loop_body_returns (last : Z) (p : poll) (self : BLEKeyboard.t) (w : world) :
  calm_poll p -> sensor_ok p ->
  exists l, fst (fst (loop_body last p (self, w))) = Ok l.
Proof.
  intros [Hg Hh] Hs. unfold sensor_ok in Hs.
  loop_body_cases last p self w; try discriminate Hs; eexists; reflexivity.
Qed.

Lemma loop_body_actions (last : Z) (p : poll) (self : BLEKeyboard.t) (w : world) :
  calm_poll p ->
  Forall (loop_action_ok (BLEKeyboard._h_rep self))
         (snd (loop_body last p (self, w))).
Proof.
  intros [Hg Hh].
  loop_body_cases last p self w;
    repeat (apply Forall_cons; split; [cbn; auto|]);
    try apply Forall_nil_2.
  all: cbn; repeat split; auto; lia.
Qed.

(** With a radio that accepts every notification, such an iteration
    notifies nothing or the pair key-down, key-up, and leaves the LED off
    when it has fired. *)
Lemma loop_body_reliable (last : Z) (p : poll) (self : BLEKeyboard.t) (w : world) :
  calm_poll p ->
  radio_reliable w ->
  (notifications (snd (loop_body last p (self, w))) = [] \/
   exists c,
     BLEKeyboard._conn_handle self = Some c /\ c <> 0 /\
     notifications (snd (loop_body last p (self, w)))
     = [GattsNotify c (BLEKeyboard._h_rep self) (key_down_frame KEY_SPACE);
        GattsNotify c (BLEKeyboard._h_rep self) key_up_frame]) /\
  led (snd (snd (fst (loop_body last p (self, w)))))
  = (if fires last p then 0 else led w).
Proof.
  intros [Hg Hh]. unfold radio_reliable, fires, touching.
  loop_body_cases last p self w; intros Hrel; try discriminate Hrel;
    (split; [first [left; reflexivity
                   | right; exists c; split; [reflexivity|split; [lia|reflexivity]]]
            | reflexivity]).
Qed.

(** Without a truthy handle an iteration notifies nothing, whatever events
    the environment holds ready, and leaves the keyboard object as it
    is. *)
Lemma loop_body_disconnected (last : Z) (p : poll) (self : BLEKeyboard.t)
    (w : world) :
  BLEKeyboard.conn_truthy (BLEKeyboard._conn_handle self) = false ->
  notifications (snd (loop_body last p (self, w))) = [] /\
  exists r w', fst (loop_body last p (self, w)) = (r, (self, w')).
Proof.
  intros Hc.
  unfold loop_body, try_except_OSError,
    BLEKeyboard.send_key, bind, lift, print, led_value, sleep_ms, sleep, emit,
    ret, BLEKeyboard.get_self, BLEKeyboard.dev.
  destruct (touch_read p) as [v|[]];
    [destruct (v <? TOUCH_THRESHOLD);
     [destruct (ticks_diff (ticks_ms (clock p)) last >? DEBOUNCE_MS)|]| | |];
    cbn -[BLEKeyboard.deliver]; rewrite ?Hc; cbn;
    (split; [reflexivity|do 2 eexists; reflexivity]).
Qed.

(** ** The running program *)

(** A step without events in the middle of the iteration changes nothing
    of the keyboard object but, on a radio event, the stored handle. *)
Lemma step_calm (s : state) (x : stimulus) :
  halted s = None -> calm x ->
  kb (fst (step s x))
  = BLEKeyboard.set_conn_handle (kb s)
      (conn_after_event (BLEKeyboard._conn_handle (kb s)) x) /\
  (match x with
   | Irq _ _ => env (fst (step s x)) = env s
   | Poll p =>
       snd (step s x) = snd (loop_body (last_press_time s) p (kb s, env s)) /\
       env (fst (step s x))
       = snd (snd (fst (loop_body (last_press_time s) p (kb s, env s))))
   end).
Proof.
  intros Hh Hx. unfold step. rewrite Hh. destruct x as [event data | p].
  - rewrite _irq_spec. repeat split.
  - destruct (loop_body_calm (last_press_time s) p (kb s) (env s) Hx)
      as ([l|e] & w' & t & E);
      rewrite E; cbn; rewrite set_conn_handle_id; repeat split.
Qed.

(** It goes on when the sensor read returns or raises [OSError]. *)
Lemma step_running (s : state) (x : stimulus) :
  halted s = None -> calm x -> reads_ok x ->
  halted (fst (step s x)) = None.
Proof.
  intros Hh Hx Hr. unfold step. rewrite Hh. destruct x as [event data | p].
  - rewrite _irq_spec. reflexivity.
  - destruct (loop_body_returns (last_press_time s) p (kb s) (env s) Hx Hr)
      as (l & E).
    destruct (loop_body (last_press_time s) p (kb s, env s)) as [[r st] t].
    cbn in E. subst r. reflexivity.
Qed.

Lemma step_irq_trace (s : state) (event : Z) (data : Z * Z * list byte) :
  halted s = None ->
  snd (step s (Irq event data)) = irq_trace (kb s) event.
Proof. intros Hh. unfold step. rewrite Hh, _irq_spec. reflexivity. Qed.

Lemma run_calm (xs : list stimulus) (s : state) :
  halted s = None -> Forall calm xs -> Forall reads_ok xs ->
  halted (fst (run s xs)) = None /\
  kb (fst (run s xs))
  = BLEKeyboard.set_conn_handle (kb s)
      (conn_after (BLEKeyboard._conn_handle (kb s)) xs).
Proof.
  revert s. induction xs as [|x xs IH]; intros s Hh Hxs Hrs.
  - cbn. rewrite set_conn_handle_id. split; [exact Hh|reflexivity].
  - apply Forall_cons in Hxs. destruct Hxs as [Hx Hxs].
    apply Forall_cons in Hrs. destruct Hrs as [Hr Hrs].
    rewrite run_cons. cbn [fst].
    destruct (step_calm s x Hh Hx) as (Hkb & _).
    pose proof (step_running s x Hh Hx Hr) as Hh1.
    destruct (IH _ Hh1 Hxs Hrs) as [Hh2 Hkb2].
    split; [exact Hh2|]. rewrite Hkb2, Hkb. reflexivity.
Qed.

(** An exception that ends the program is no [OSError]: it is the
    [TypeError] of [send_key], or the exception of a sensor read. *)
Lemma run_halts (xs : list stimulus) (s : state) (e : exn) :
  halted s = None ->
  halted (fst (run s xs)) = Some e ->
  e <> OSError /\
  (e = TypeError \/ exists p, In (Poll p) xs /\ touch_read p = Raise e).
Proof.
  revert s. induction xs as [|x xs IH]; intros s Hh He.
  - cbn in He. congruence.
  - rewrite run_cons in He. cbn [fst] in He.
    destruct (step_spec s x Hh) as (s1 & t & E & Hh1 & _).
    rewrite E in He. cbn [fst] in He.
    destruct Hh1 as [Hh1 | (_ & e1 & Hh1 & Hne & Hwhy)].
    + destruct (IH s1 Hh1 He) as [Hne [Ht | (p & Hin & Hp)]].
      * split; [exact Hne|left; exact Ht].
      * split; [exact Hne|]. right. exists p. split; [right; exact Hin|exact Hp].
    + destruct (run_halted xs s1 _ Hh1) as [Hs _]. rewrite Hs, Hh1 in He.
      injection He as <-. split; [exact Hne|].
      destruct Hwhy as [[-> _] | (p & -> & Hp)]; [left; reflexivity|].
      right. exists p. split; [left; reflexivity|exact Hp].
Qed.

(** X6: an exception that escapes the loop is never an [OSError]: it is
    the [TypeError] of [gatts_notify] (the stored handle was cleared while
    [send_key] was under way) or an exception of another class raised by
    the sensor read.  Whatever the readings and the radio faults, none
    escapes as long as a failing sensor read raises [OSError] and the radio
    events arrive between iterations.  And the program never changes the
    characteristic values written at startup. *)
Theorem program_halts_on_uncaught_only (w : world) (xs : list stimulus) :
  (forall e,
     halted (fst (run (fst (main_init w)) xs)) = Some e ->
     e <> OSError /\
     (e = TypeError \/ exists p, In (Poll p) xs /\ touch_read p = Raise e)) /\
  (Forall calm xs -> Forall reads_ok xs ->
   halted (fst (run (fst (main_init w)) xs)) = None) /\
  gatts (env (fst (run (fst (main_init w)) xs)))
  = gatts (env (fst (main_init w))).
Proof.
  destruct (main_init_spec w) as (Hh & _).
  split; [intros e; apply run_halts; exact Hh|].
  split; [intros Hxs Hrs; apply run_calm; assumption|].
  apply run_invariant.
Qed.

(** X7: as long as the program runs (a failing sensor read raises
    [OSError]) and the radio events arrive between iterations, the stored
    connection handle follows the events alone: after any run it is the
    handle of the last connect event, or [None] when a disconnect event came
    later or no connect event came at all; loop iterations never change
    it. *)
Theorem conn_handle_tracks_events (w : world) (xs : list stimulus) :
  Forall calm xs -> Forall reads_ok xs ->
  BLEKeyboard._conn_handle (kb (fst (run (fst (main_init w)) xs)))
  = conn_after None xs.
Proof.
  intros Hxs Hrs.
  destruct (main_init_spec w) as (Hh & _ & Hconn & _).
  destruct (run_calm xs _ Hh Hxs Hrs) as [_ Hkb].
  rewrite Hkb, Hconn. reflexivity.
Qed.

Lemma conn_handle_tracks_events_witness :
  BLEKeyboard._conn_handle
    (kb (fst (run (fst (main_init ble0))
                (Irq _IRQ_CENTRAL_CONNECT (3, 0, []) :: two_touches))))
  = conn_after None (Irq _IRQ_CENTRAL_CONNECT (3, 0, []) :: two_touches).
Proof.
  apply (conn_handle_tracks_events ble0
           (Irq _IRQ_CENTRAL_CONNECT (3, 0, []) :: two_touches)).
  - repeat (apply Forall_cons_2; [first [exact I | split; reflexivity]|]).
    apply Forall_nil_2.
  - repeat (apply Forall_cons_2; [exact I|]). apply Forall_nil_2.
Defined.

Lemma loop_actions_no_adv (h : Z) (t : list action) :
  Forall (loop_action_ok h) t -> List.filter is_adv t = [].
Proof.
  induction 1 as [|a t Ha _ IH]; [reflexivity|].
  cbn. destruct a; cbn in Ha |- *; try exact IH. contradiction.
Qed.

Lemma advertisements_from (xs : list stimulus) (s : state) :
  halted s = None -> Forall calm xs -> Forall reads_ok xs ->
  List.filter is_adv (List.concat (snd (run s xs)))
  = repeat (GapAdvertise 500000 (BLEKeyboard._payload (kb s)))
           (List.length (List.filter is_disconnect xs)).
Proof.
  revert s. induction xs as [|x xs IH]; intros s Hh Hxs Hrs; [reflexivity|].
  apply Forall_cons in Hxs. destruct Hxs as [Hx Hxs].
  apply Forall_cons in Hrs. destruct Hrs as [Hr Hrs].
  rewrite run_cons. cbn [snd List.concat]. rewrite List.filter_app.
  destruct (step_calm s x Hh Hx) as (Hkb & Hstep).
  pose proof (step_running s x Hh Hx Hr) as Hh1.
  rewrite (IH _ Hh1 Hxs Hrs), Hkb.
  replace (BLEKeyboard._payload (BLEKeyboard.set_conn_handle (kb s) _))
    with (BLEKeyboard._payload (kb s)) by reflexivity.
  destruct x as [event data | p].
  - rewrite (step_irq_trace s event data Hh).
    unfold irq_trace. cbn [List.filter is_disconnect].
    destruct (event =? _IRQ_CENTRAL_CONNECT) eqn:E1.
    + assert (E2 : (event =? _IRQ_CENTRAL_DISCONNECT) = false)
        by (unfold _IRQ_CENTRAL_CONNECT, _IRQ_CENTRAL_DISCONNECT in *; lia).
      rewrite E2. reflexivity.
    + destruct (event =? _IRQ_CENTRAL_DISCONNECT); reflexivity.
  - destruct Hstep as [Ht _]. rewrite Ht.
    rewrite (loop_actions_no_adv _ _
               (loop_body_actions (last_press_time s) p (kb s) (env s) Hx)).
    reflexivity.
Qed.

(** X8: as long as the program runs (a failing sensor read raises
    [OSError]) and the radio events arrive between iterations, the device
    advertises once per disconnect event and at no other time after startup
    (not on a connect event, not from the loop), always with the payload
    built at startup from the default name. *)
Theorem advertises_once_per_disconnect (w : world) (xs : list stimulus) :
  Forall calm xs -> Forall reads_ok xs ->
  List.filter is_adv (List.concat (snd (run (fst (main_init w)) xs)))
  = repeat (GapAdvertise 500000
              (advertising_payload false false (Some BLEKeyboard.default_name)
                 _ADV_APPEARANCE_KEYBOARD))
           (List.length (List.filter is_disconnect xs)).
Proof.
  intros Hxs Hrs.
  destruct (main_init_spec w) as (Hh & _ & _ & Hpay & _).
  rewrite (advertisements_from xs _ Hh Hxs Hrs), Hpay. reflexivity.
Qed.

Lemma advertises_once_per_disconnect_witness :
  List.filter is_adv
    (List.concat (snd (run (fst (main_init ble0))
                         [Irq _IRQ_CENTRAL_CONNECT (3, 0, []);
                          Poll (mkPoll (Ok 700) 1000);
                          Irq _IRQ_CENTRAL_DISCONNECT (3, 0, [])])))
  = repeat (GapAdvertise 500000
              (advertising_payload false false (Some BLEKeyboard.default_name)
                 _ADV_APPEARANCE_KEYBOARD))
           (List.length
              (List.filter is_disconnect
                 [Irq _IRQ_CENTRAL_CONNECT (3, 0, []);
                  Poll (mkPoll (Ok 700) 1000);
                  Irq _IRQ_CENTRAL_DISCONNECT (3, 0, [])])).
Proof.
  apply (advertises_once_per_disconnect ble0
           [Irq _IRQ_CENTRAL_CONNECT (3, 0, []);
            Poll (mkPoll (Ok 700) 1000);
            Irq _IRQ_CENTRAL_DISCONNECT (3, 0, [])]).
  - repeat (apply Forall_cons_2; [first [exact I | split; reflexivity]|]).
    apply Forall_nil_2.
  - repeat (apply Forall_cons_2; [exact I|]). apply Forall_nil_2.
Defined.

(** The traces of a halted program satisfy every property of traces that
    the empty trace has. *)
Lemma run_halted_traces (P : list action -> Prop) (xs : list stimulus)
    (s : state) (e : exn) :
  halted s = Some e -> P [] -> Forall P (snd (run s xs)).
Proof.
  intros Hh HP. destruct (run_halted xs s e Hh) as [_ Hnil].
  eapply Forall_impl; [exact Hnil|]. intros t ->. exact HP.
Qed.

Lemma run_actions_from (xs : list stimulus) (s : state) :
  halted s = None -> Forall calm xs ->
  Forall (Forall (run_action_ok (BLEKeyboard._h_rep (kb s)))) (snd (run s xs)).
Proof.
  revert s. induction xs as [|x xs IH]; intros s Hh Hxs; [apply Forall_nil_2|].
  apply Forall_cons in Hxs. destruct Hxs as [Hx Hxs].
  rewrite run_cons. cbn [snd].
  destruct (step_calm s x Hh Hx) as (Hkb & Hstep).
  apply Forall_cons. split.
  - destruct x as [event data | p].
    + rewrite (step_irq_trace s event data Hh). unfold irq_trace.
      destruct (event =? _IRQ_CENTRAL_CONNECT);
        [|destruct (event =? _IRQ_CENTRAL_DISCONNECT)];
        repeat (apply Forall_cons; split;
                [first [left; exact I | right; reflexivity]|]);
        apply Forall_nil_2.
    + destruct Hstep as [Ht _]. rewrite Ht.
      eapply Forall_impl;
        [apply (loop_body_actions (last_press_time s) p (kb s) (env s) Hx)|].
      intros a Ha. left. exact Ha.
  - destruct (halted (fst (step s x))) as [e|] eqn:Hh1.
    + apply (run_halted_traces _ xs _ e Hh1). apply Forall_nil_2.
    + specialize (IH _ Hh1 Hxs). rewrite Hkb in IH. exact IH.
Qed.

(** X9: when the radio events arrive between iterations, the program,
    after startup, talks to the radio in two ways only: it advertises, and
    it notifies the key-down frame of the space key or the all-zero frame,
    on the Input Report characteristic, to a nonzero connection handle.  It
    never writes a characteristic, never registers a service again, never
    calls [send_key] with another key. *)
Theorem run_actions_are_space_frames (w : world) (xs : list stimulus) :
  Forall calm xs ->
  Forall (Forall (run_action_ok
                    (BLEKeyboard._h_rep (kb (fst (main_init w))))))
         (snd (run (fst (main_init w)) xs)) /\
  BLEKeyboard._h_rep (kb (fst (main_init w)))
  = (let '(_, _, h_rep, _, _) := stack_handles w in h_rep).
Proof.
  intros Hxs.
  destruct (main_init_spec w) as (Hh & _).
  split; [apply run_actions_from; assumption|].
  destruct (main_init_env w) as (_ & _ & Hhs).
  destruct (stack_handles w) as [[[[h1 h2] h3] h4] h5].
  injection Hhs as _ _ H3 _ _. exact H3.
Qed.

Lemma run_actions_are_space_frames_witness :
  Forall (Forall (run_action_ok
                    (BLEKeyboard._h_rep (kb (fst (main_init ble0))))))
         (snd (run (fst (main_init ble0))
                 (Irq _IRQ_CENTRAL_CONNECT (3, 0, []) :: two_touches))) /\
  BLEKeyboard._h_rep (kb (fst (main_init ble0)))
  = (let '(_, _, h_rep, _, _) := stack_handles ble0 in h_rep).
Proof.
  apply (run_actions_are_space_frames ble0
           (Irq _IRQ_CENTRAL_CONNECT (3, 0, []) :: two_touches)).
  repeat (apply Forall_cons_2; [first [exact I | split; reflexivity]|]).
  apply Forall_nil_2.
Defined.

Lemma reliable_run_from (xs : list stimulus) (s : state) :
  halted s = None -> Forall calm xs ->
  radio_reliable (env s) ->
  led (env s) = 0 ->
  Forall (press_or_nothing (BLEKeyboard._h_rep (kb s))) (snd (run s xs)) /\
  led (env (fst (run s xs))) = 0.
Proof.
  revert s. induction xs as [|x xs IH]; intros s Hh Hxs Hrel Hled.
  - split; [apply Forall_nil_2|exact Hled].
  - apply Forall_cons in Hxs. destruct Hxs as [Hx Hxs].
    rewrite run_cons. cbn [fst snd].
    destruct (step_calm s x Hh Hx) as (Hkb & Hstep).
    destruct (step_spec s x Hh) as (s1 & t & E & _ & _ & _ & _ & _ & _ & _ & Hr).
    destruct (Hr Hrel) as [Hrel1 _].
    assert (Hs1 : s1 = fst (step s x)) by (rewrite E; reflexivity).
    rewrite Hs1 in Hrel1. clear E Hr Hs1 s1 t.
    assert (Hone : press_or_nothing (BLEKeyboard._h_rep (kb s)) (snd (step s x))
                   /\ led (env (fst (step s x))) = 0).
    { destruct x as [event data | p].
      - rewrite Hstep, (step_irq_trace s event data Hh).
        destruct (irq_trace_facts (kb s) event) as (_ & _ & Hn).
        split; [left; exact Hn|exact Hled].
      - destruct Hstep as [Ht He]. rewrite Ht, He.
        destruct (loop_body_reliable (last_press_time s) p (kb s) (env s) Hx Hrel)
          as [Hn Hl].
        split.
        + destruct Hn as [Hn | (c & _ & Hc & Hn)]; [left; exact Hn|].
          right. exists c. split; [exact Hc|exact Hn].
        + rewrite Hl, Hled. destruct (fires _ _); reflexivity. }
    destruct Hone as [Hpress Hled1].
    destruct (halted (fst (step s x))) as [e|] eqn:Hh1.
    + destruct (run_halted xs _ e Hh1) as [Hfix _]. rewrite Hfix.
      split; [|exact Hled1].
      apply Forall_cons. split; [exact Hpress|].
      apply (run_halted_traces _ xs _ e Hh1). left. reflexivity.
    + destruct (IH _ Hh1 Hxs Hrel1 Hled1) as [Hall Hled2].
      rewrite Hkb in Hall.
      split; [|exact Hled2].
      apply Forall_cons. split; [exact Hpress|exact Hall].
Qed.

(** X10: as long as the radio accepts every notification and the radio
    events arrive between iterations, each radio event and each loop
    iteration sends either nothing or exactly one key-down frame followed
    by the key-up frame (no key is left pressed), and the LED is off between
    iterations. *)
Theorem reliable_radio_press_release (w : world) (xs : list stimulus) :
  radio_reliable w ->
  Forall calm xs ->
  Forall (press_or_nothing (BLEKeyboard._h_rep (kb (fst (main_init w)))))
         (snd (run (fst (main_init w)) xs)) /\
  led (env (fst (run (fst (main_init w)) xs))) = 0.
Proof.
  intros Hrel Hxs.
  destruct (main_init_spec w) as (Hh & _).
  destruct (main_init_env w) as (Hled & Hscript & _).
  apply reliable_run_from; [exact Hh | exact Hxs | | exact Hled].
  unfold radio_reliable in *. rewrite Hscript. exact Hrel.
Qed.

Lemma reliable_radio_press_release_witness :
  Forall (press_or_nothing (BLEKeyboard._h_rep (kb (fst (main_init ble0)))))
         (snd (run (fst (main_init ble0))
                 (Irq _IRQ_CENTRAL_CONNECT (3, 0, []) :: two_touches))) /\
  led (env (fst (run (fst (main_init ble0))
                   (Irq _IRQ_CENTRAL_CONNECT (3, 0, []) :: two_touches)))) = 0.
Proof.
  apply (reliable_radio_press_release ble0
           (Irq _IRQ_CENTRAL_CONNECT (3, 0, []) :: two_touches)).
  - reflexivity.
  - repeat (apply Forall_cons_2; [first [exact I | split; reflexivity]|]).
    apply Forall_nil_2.
Defined.

(** Without a connect event the handle stays [None] and every iteration
    returns at the guard of [send_key], before any event can be delivered
    inside it. *)
Lemma silent_from (xs : list stimulus) (s : state) :
  BLEKeyboard._conn_handle (kb s) = None ->
  forallb (fun x => negb (is_connect x)) xs = true ->
  Forall (fun t => notifications t = []) (snd (run s xs)).
Proof.
  revert s. induction xs as [|x xs IH]; intros s Hc Hxs; [apply Forall_nil_2|].
  cbn [forallb] in Hxs. apply andb_prop in Hxs. destruct Hxs as [Hx Hxs].
  rewrite run_cons. cbn [snd].
  assert (Hstep : notifications (snd (step s x)) = [] /\
                  BLEKeyboard._conn_handle (kb (fst (step s x))) = None).
  { unfold step. destruct (halted s); [split; [reflexivity|exact Hc]|].
    destruct x as [event [[h a] b] | p].
    - rewrite _irq_spec. cbn [fst snd kb].
      destruct (irq_trace_facts (kb s) event) as (_ & _ & Hn).
      split; [exact Hn|].
      cbn in Hx |- *. destruct (event =? _IRQ_CENTRAL_CONNECT); [discriminate Hx|].
      destruct (event =? _IRQ_CENTRAL_DISCONNECT); [reflexivity|exact Hc].
    - destruct (loop_body_disconnected (last_press_time s) p (kb s) (env s))
        as (Hn & r & w' & E); [rewrite Hc; reflexivity|].
      destruct (loop_body (last_press_time s) p (kb s, env s)) as [[r0 st] t].
      cbn [fst snd] in Hn, E. injection E as -> ->.
      destruct r; cbn; (split; [exact Hn|exact Hc]). }
  destruct Hstep as (Hn & Hc1).
  apply Forall_cons. split; [exact Hn|].
  apply IH; assumption.
Qed.

(** X11: until the first connect event arrives, nothing is notified: touches
    are detected and debounced as usual, but their keys are dropped, not
    queued. *)
Theorem silent_until_connected (w : world) (xs : list stimulus) :
  forallb (fun x => negb (is_connect x)) xs = true ->
  Forall (fun t => notifications t = []) (snd (run (fst (main_init w)) xs)).
Proof.
  intros Hxs.
  destruct (main_init_spec w) as (_ & _ & Hconn & _).
  apply silent_from; assumption.
Qed.

Lemma silent_until_connected_witness :
  Forall (fun t => notifications t = [])
         (snd (run (fst (main_init ble0))
                 (Irq _IRQ_CENTRAL_DISCONNECT (3, 0, []) :: two_touches))).
Proof.
  apply (silent_until_connected ble0
           (Irq _IRQ_CENTRAL_DISCONNECT (3, 0, []) :: two_touches)).
  reflexivity.
Defined.

(** X12: when the radio rejects the key-down notification, the iteration
    ends in the [except] branch: nothing is notified, the error is printed,
    the loop backs off for one second instead of 20 ms, the LED stays on and
    [last_press_time] is not recorded, so the debounce window does not
    start. *)
Theorem loop_body_radio_fault (self : BLEKeyboard.t) (last : Z) (p : poll)
    (w : world) (v c : Z) (rest : list bool) :
  touch_read p = Ok v ->
  fires last p = true ->
  irq_after_guard p = [] ->
  BLEKeyboard._conn_handle self = Some c -> c <> 0 ->
  radio_script w = false :: rest ->
  loop_body last p (self, w)
  = (Ok last,
     (self, mkWorld (gatts w) 1 (stack_handles w) rest),
     [Print (MsgTouch v); LedValue 1; CallSendKey KEY_SPACE; Print (MsgError OSError);
      Sleep 1]).
Proof.
  intros Hv Hf Hg Hc Hnz Hs.
  unfold fires, touching in Hf. rewrite Hv in Hf.
  apply andb_prop in Hf. destruct Hf as [Hth Hdb].
  unfold loop_body, try_except_OSError.
  rewrite Hg. unfold_methods. unfold led_value.
  rewrite Hv, Hth, Hdb.
  assert (E : (c =? 0) = false) by lia.
  cbn. rewrite Hc, E. cbn. rewrite Hc, Hs. reflexivity.
Qed.

Lemma loop_body_radio_fault_witness :
  loop_body 0 (mkPoll (Ok 700) 1000)
    (BLEKeyboard.mk 16 18 20 23 25 (Some 3) [],
     mkWorld ∅ 0 (16, 18, 20, 23, 25) [false])
  = (Ok 0,
     (BLEKeyboard.mk 16 18 20 23 25 (Some 3) [],
      mkWorld ∅ 1 (16, 18, 20, 23, 25) []),
     [Print (MsgTouch 700); LedValue 1; CallSendKey KEY_SPACE;
      (Print (MsgError OSError)); Sleep 1]).
Proof.
  apply (loop_body_radio_fault (BLEKeyboard.mk 16 18 20 23 25 (Some 3) []) 0
           (mkPoll (Ok 700) 1000) (mkWorld ∅ 0 (16, 18, 20, 23, 25) [false])
           700 3 []).
  - reflexivity.
  - vm_compute. reflexivity.
  - reflexivity.
  - reflexivity.
  - lia.
  - reflexivity.
Defined.

(** ** Key events in real time *)

(** X13: while less than half a tick period has passed since the last
    accepted event, the wrap-around of the tick counter does not matter: an
    iteration calls [send_key] exactly when its reading is below the
    threshold and more than DEBOUNCE_MS milliseconds have passed. *)
Theorem key_event_iff_elapsed (s : state) (p : poll) (v last_clock : Z) :
  halted s = None ->
  last_press_time s = ticks_ms last_clock ->
  0 <= clock p - last_clock < TICKS_PERIOD / 2 ->
  touch_read p = Ok v ->
  fired (snd (step s (Poll p))) = true <->
  v < TOUCH_THRESHOLD /\ clock p - last_clock > DEBOUNCE_MS.
Proof.
  intros Hh Hl Hc Hv.
  destruct (step_spec s (Poll p) Hh)
    as (s1 & t & E & _ & _ & _ & _ & _ & Hf & _).
  rewrite E. cbn [snd]. rewrite Hf. cbn [expected_fire].
  unfold fires, touching. rewrite Hv, Hl, (ticks_diff_small _ _ Hc).
  rewrite andb_true_iff. lia.
Qed.

Lemma key_event_iff_elapsed_witness :
  fired (snd (step booted (Poll (mkPoll (Ok 700) 1000)))) = true <->
  700 < TOUCH_THRESHOLD /\ 1000 - 0 > DEBOUNCE_MS.
Proof.
  apply (key_event_iff_elapsed booted (mkPoll (Ok 700) 1000) 700 0).
  - reflexivity.
  - reflexivity.
  - vm_compute. split; [discriminate | reflexivity].
  - reflexivity.
Defined.

(** X14: the tick counter is compared on a ring: a touch that comes between
    half a tick period and one period plus DEBOUNCE_MS after the last
    accepted event looks as if it came before it, or within the debounce
    window, and produces no key event. *)
Theorem long_idle_touch_dropped (s : state) (p : poll) (last_clock : Z) :
  halted s = None ->
  last_press_time s = ticks_ms last_clock ->
  TICKS_PERIOD / 2 <= clock p - last_clock <= TICKS_PERIOD + DEBOUNCE_MS ->
  fired (snd (step s (Poll p))) = false.
Proof.
  intros Hh Hl Hc.
  destruct (step_spec s (Poll p) Hh)
    as (s1 & t & E & _ & _ & _ & _ & _ & Hf & _).
  rewrite E. cbn [snd]. rewrite Hf. cbn [expected_fire].
  unfold fires. rewrite Hl, ticks_diff_of_clocks.
  change (TICKS_PERIOD / 2) with 536870912 in *.
  change TICKS_PERIOD with 1073741824 in *. unfold DEBOUNCE_MS in *.
  assert (Hmod : (clock p - last_clock + 536870912) mod 1073741824
                 = clock p - last_clock + 536870912 - 1073741824).
  { symmetry. apply (Z.mod_unique_pos _ 1073741824 1); lia. }
  rewrite Hmod. apply andb_false_intro2. lia.
Qed.

Lemma long_idle_touch_dropped_witness :
  fired (snd (step booted (Poll (mkPoll (Ok 700) 600000000)))) = false.
Proof.
  apply (long_idle_touch_dropped booted (mkPoll (Ok 700) 600000000) 0).
  - reflexivity.
  - reflexivity.
  - vm_compute. split; discriminate.
Defined.

(** ** A disconnect during the hold *)

(** X15: when the central disconnects while [send_key] holds the key (after
    the key-down notification, during the 75 ms sleep), the handler clears
    the stored handle and advertises, and the key-up notification is then
    attempted with [None]: [gatts_notify] raises [TypeError], which the
    [except OSError] of the loop does not catch.  The key-up frame is never
    sent, the LED stays on, [last_press_time] is not recorded and the
    program ends. *)
Theorem disconnect_in_hold_halts (s : state) (v time c : Z) :
  halted s = None ->
  fires (last_press_time s) (disconnect_in_hold v time) = true ->
  BLEKeyboard._conn_handle (kb s) = Some c -> c <> 0 ->
  hd true (radio_script (env s)) = true ->
  step s (Poll (disconnect_in_hold v time))
  = (mkState (BLEKeyboard.set_conn_handle (kb s) None) (last_press_time s)
       (mkWorld (gatts (env s)) 1 (stack_handles (env s))
          (tl (radio_script (env s))))
       (Some TypeError),
     [Print (MsgTouch v); LedValue 1; CallSendKey KEY_SPACE;
      GattsNotify c (BLEKeyboard._h_rep (kb s)) (key_down_frame KEY_SPACE);
      SleepMs KEY_HOLD_TIME_MS; Print MsgDisconnected;
      GapAdvertise 500000 (BLEKeyboard._payload (kb s))]).
Proof.
  intros Hh Hf Hc Hnz Hr.
  unfold fires, touching in Hf. cbn [touch_read disconnect_in_hold] in Hf.
  apply andb_prop in Hf. destruct Hf as [Hth Hdb].
  unfold step. rewrite Hh.
  unfold loop_body, try_except_OSError.
  cbn [touch_read irq_after_guard irq_in_hold disconnect_in_hold clock] in *.
  unfold_methods. unfold led_value.
  rewrite Hth, Hdb.
  assert (E : (c =? 0) = false) by lia.
  destruct (kb s) as [h_info h_map h_rep h_proto h_ctrl conn payload].
  destruct (env s) as [g l hs script].
  cbn in Hc, Hr. subst conn.
  destruct script as [|[] rest]; [| |discriminate Hr];
    cbn; rewrite E; reflexivity.
Qed.

Lemma disconnect_in_hold_halts_witness :
  step (fst (run booted [Irq _IRQ_CENTRAL_CONNECT (3, 0, [])]))
       (Poll (disconnect_in_hold 700 1000))
  = (mkState
       (BLEKeyboard.set_conn_handle
          (kb (fst (run booted [Irq _IRQ_CENTRAL_CONNECT (3, 0, [])]))) None)
       (last_press_time (fst (run booted [Irq _IRQ_CENTRAL_CONNECT (3, 0, [])])))
       (mkWorld
          (gatts (env (fst (run booted [Irq _IRQ_CENTRAL_CONNECT (3, 0, [])]))))
          1
          (stack_handles
             (env (fst (run booted [Irq _IRQ_CENTRAL_CONNECT (3, 0, [])]))))
          (tl (radio_script
                 (env (fst (run booted [Irq _IRQ_CENTRAL_CONNECT (3, 0, [])]))))))
       (Some TypeError),
     [Print (MsgTouch 700); LedValue 1; CallSendKey KEY_SPACE;
      GattsNotify 3
        (BLEKeyboard._h_rep
           (kb (fst (run booted [Irq _IRQ_CENTRAL_CONNECT (3, 0, [])]))))
        (key_down_frame KEY_SPACE);
      SleepMs KEY_HOLD_TIME_MS; Print MsgDisconnected;
      GapAdvertise 500000
        (BLEKeyboard._payload
           (kb (fst (run booted [Irq _IRQ_CENTRAL_CONNECT (3, 0, [])]))))]).
Proof.
  apply (disconnect_in_hold_halts
           (fst (run booted [Irq _IRQ_CENTRAL_CONNECT (3, 0, [])])) 700 1000 3).
  - reflexivity.
  - vm_compute. reflexivity.
  - reflexivity.
  - lia.
  - reflexivity.
Defined.
